(** * pdf-rag: the scraping pipeline of [pdf_scraping]

    A shallow embedding of [pdf_scraping/arxiv_downloader.py]
    ([ArxivPaperDownloader.download_and_filter_pdfs]) and of
    [pdf_scraping/research_processor.py] ([generate_responses],
    [convert_responses_to_json], [combine_json_files], [run]).

    The outside world (the HTTP transport and PDF reader, the generative
    model) is an explicit oracle argument; the file system is explicit
    state; the calls the code makes that matter to a reader of the log
    ([requests.get], file writes, [logging], [time.sleep]) are recorded
    as events, in program order. *)

From Stdlib Require Import String Ascii List ZArith Arith Bool Lia Permutation.
Import ListNotations.

Set Warnings "-register-all".

Local Open Scope string_scope.
Local Open Scope list_scope.
Local Open Scope nat_scope.

(** ** [ArxivPaperDownloader] *)

Module Downloader.

(** One row of the frame built by [process_paper_metadata]. *)
Record row : Type := mkRow {
  id : string;
  pdf_url : string;
  title : string;
  authors : string;
  abstract : string
}.

(** The frame has a [RangeIndex]: [iterrows] yields each row with its
    position as label. *)
Definition DataFrame : Type := list row.

Definition iterrows (df : DataFrame) : list (nat * row) :=
  combine (seq 0 (length df)) df.

(** What the world answers when the body of the [try] runs for a row.
    [Raised]: [requests.get], [raise_for_status] or [PdfReader] raised.
    [Pdf n can_save]: the PDF was read and has [n] pages; [can_save] says
    whether [open(file_path, 'wb')] and the write go through (they are
    inside the same [try]; an id with a slash names a missing folder). *)
Inductive outcome : Type :=
| Raised
| Pdf (page_count : nat) (can_save : bool).

(** The answer for the row labelled [i]. *)
Definition network : Type := nat -> outcome.

Inductive event : Type :=
| EvGet (i : nat) (url : string)          (* requests.get(url) *)
| EvSave (i : nat) (file_name : string)   (* the binary written to output_folder *)
| EvWarn (i : nat) (url : string).        (* logging.warning("Failed to process ...") *)


Record dl_state : Type := mkState {
  valid_pdf_count : nat;
  pdf_page_counts : list nat;
  events : list event
}.

Definition dl_init : dl_state :=
  {| valid_pdf_count := 0; pdf_page_counts := []; events := [] |}.

Definition emit (e : event) (st : dl_state) : dl_state :=
  {| valid_pdf_count := valid_pdf_count st;
     pdf_page_counts := pdf_page_counts st;
     events := events st ++ [e] |}.

Definition incr_valid (st : dl_state) : dl_state :=
  {| valid_pdf_count := valid_pdf_count st + 1;
     pdf_page_counts := pdf_page_counts st;
     events := events st |}.

Definition append_count (n : nat) (st : dl_state) : dl_state :=
  {| valid_pdf_count := valid_pdf_count st;
     pdf_page_counts := pdf_page_counts st ++ [n];
     events := events st |}.

(** The literal of [if valid_pdf_count >= 100: break]. *)
Definition quota_cap : nat := 100.

(** The body of the [try] for one row (lines 71-84). [None]: an exception
    was raised (nothing but the [EvGet] had happened: the counter is
    incremented and the count appended only after the write).
    [Some (st, true)]: the [break] was taken. *)
Definition try_row (cap : nat) (max_pages : Z) (net : network)
    (i : nat) (r : row) (st : dl_state) : option (dl_state * bool) :=
  match net i with
  | Raised => None
  | Pdf page_count can_save =>
      let saved :=
        if (Z.of_nat page_count <=? max_pages)%Z then
          if can_save
          then Some (incr_valid (emit (EvSave i (id r ++ ".pdf")) st))
          else None
        else Some st in
      match saved with
      | None => None
      | Some st1 =>
          let st2 := append_count page_count st1 in
          Some (st2, cap <=? valid_pdf_count st2)
      end
  end.

(** The [except] branch (lines 85-87). *)
Definition on_except (i : nat) (r : row) (st : dl_state) : dl_state :=
  append_count 0 (emit (EvWarn i (pdf_url r)) st).

(** The [for] loop (lines 68-87), with the cap of the [break] as an
    argument; the source runs it at [quota_cap]. *)
Fixpoint download_loop (cap : nat) (max_pages : Z) (net : network)
    (rows : list (nat * row)) (st : dl_state) : dl_state :=
  match rows with
  | [] => st
  | (i, r) :: rest =>
      let st0 := emit (EvGet i (pdf_url r)) st in
      match try_row cap max_pages net i r st0 with
      | Some (st', true) => st'
      | Some (st', false) => download_loop cap max_pages net rest st'
      | None => download_loop cap max_pages net rest (on_except i r st0)
      end
  end.

(** [df['pdf_page_count'] = pdf_page_counts]: pandas raises [ValueError]
    when the lengths differ. *)
Definition assign_column (df : list (nat * row)) (col : list nat)
  : option (list (nat * row * nat)) :=
  if length df =? length col then Some (combine df col) else None.

Definition page_filter (max_pages : Z) (x : nat * row * nat) : bool :=
  (Z.of_nat (snd x) <=? max_pages)%Z.

(** Lines 89-97: trim to the processed rows, attach the column, filter. *)
Definition trim_and_filter (max_pages : Z) (df : DataFrame) (st : dl_state)
  : option (list (nat * row * nat)) :=
  let processed_rows := length (pdf_page_counts st) in
  let df' := firstn processed_rows (iterrows df) in
  match assign_column df' (pdf_page_counts st) with
  | Some df'' => Some (filter (page_filter max_pages) df'')
  | None => None
  end.

Definition download_and_filter_with (cap : nat) (max_pages : Z)
    (net : network) (df : DataFrame)
  : dl_state * option (list (nat * row * nat)) :=
  let st := download_loop cap max_pages net (iterrows df) dl_init in
  (st, trim_and_filter max_pages df st).

Definition download_and_filter_pdfs (max_pages : Z) (net : network)
    (df : DataFrame) : dl_state * option (list (nat * row * nat)) :=
  download_and_filter_with quota_cap max_pages net df.

(** *** Views of a run *)

Definition saved_files (evs : list event) : list string :=
  flat_map (fun e => match e with EvSave _ f => [f] | _ => [] end) evs.

Definition attempted (evs : list event) : list nat :=
  flat_map (fun e => match e with EvGet i _ => [i] | _ => [] end) evs.


(** The source keeps no status field. The status the specification gives
    a record after this stage is read off what the run did for it: its
    binary was saved, its [try] ended in the [except], or neither. *)
Inductive status : Type := Discovered | Downloaded | RetrievalFailed.

Definition status_of (evs : list event) (i : nat) : status :=
  if existsb (fun e => match e with EvSave j _ => j =? i | _ => false end) evs
  then Downloaded
  else if existsb (fun e => match e with EvWarn j _ => j =? i | _ => false end) evs
  then RetrievalFailed
  else Discovered.

(** The page count the code records for the row labelled [i]. *)
Definition recorded (max_pages : Z) (net : network) (i : nat) : nat :=
  match net i with
  | Raised => 0
  | Pdf page_count can_save =>
      if (Z.of_nat page_count <=? max_pages)%Z
      then if can_save then page_count else 0
      else page_count
  end.

(** The attempted prefix with the recorded count of each row. *)
Definition annotated (max_pages : Z) (net : network) (k : nat)
    (df : DataFrame) : list (nat * row * nat) :=
  map (fun x => (x, recorded max_pages net (fst x))) (firstn k (iterrows df)).

(** Sample data for the concrete runs. *)
Definition paper (name : string) : row :=
  {| id := name;
     pdf_url := "http://arxiv.org/pdf/" ++ name;
     title := "Title of " ++ name;
     authors := "A. Author";
     abstract := "Abstract." |}.

Definition one_long_paper : network :=
  fun i => match i with 1 => Pdf 20 true | _ => Pdf 5 true end.

Definition all_short : network := fun _ => Pdf 5 true.

Definition first_download_fails : network :=
  fun i => match i with 0 => Raised | _ => Pdf 5 true end.


(** Order-preserving selection. *)
Inductive subseq {A : Type} : list A -> list A -> Prop :=
| subseq_nil : subseq [] []
| subseq_skip : forall x l1 l2, subseq l1 l2 -> subseq l1 (x :: l2)
| subseq_take : forall x l1 l2, subseq l1 l2 -> subseq (x :: l1) (x :: l2).

End Downloader.

(** ** Strings and JSON values, as the processor uses them *)

Module Text.

(** [s.endswith(suffix)]. *)
Definition endswith (suffix s : string) : bool :=
  let n := String.length s in
  let m := String.length suffix in
  if m <=? n then String.eqb (substring (n - m) m s) suffix else false.

(** [s.replace(old, new)] for a non-empty [old], as at every call site
    (".pdf", ".txt", ".json"): occurrences are replaced from the left and
    do not overlap. [skip] counts the characters of a matched occurrence
    still to be passed over. *)
Fixpoint replace_from (old new : string) (skip : nat) (s : string) : string :=
  match s with
  | EmptyString => EmptyString
  | String c s' =>
      match skip with
      | S k => replace_from old new k s'
      | 0 =>
          if prefix old s
          then new ++ replace_from old new (String.length old - 1) s'
          else String c (replace_from old new 0 s')
      end
  end.

Definition replace (old new s : string) : string := replace_from old new 0 s.

End Text.

Module Json.

(** A decoded JSON document, as [json.loads] returns it: [None], [bool],
    [int], [float] (kept as its literal), [str], [list], [dict]. *)
Inductive json : Type :=
| JNull
| JBool (b : bool)
| JInt (z : Z)
| JFloat (literal : string)
| JStr (s : string)
| JArr (items : list json)
| JObj (members : list (string * json)).

(** A Python [dict] (and a folder listing): keys are unique and keep the
    place of their first insertion. *)
Fixpoint assoc_get {A : Type} (k : string) (d : list (string * A)) : option A :=
  match d with
  | [] => None
  | (k', v) :: d' => if String.eqb k' k then Some v else assoc_get k d'
  end.

Fixpoint assoc_set {A : Type} (k : string) (v : A) (d : list (string * A))
  : list (string * A) :=
  match d with
  | [] => [(k, v)]
  | (k', v') :: d' =>
      if String.eqb k' k then (k, v) :: d' else (k', v') :: assoc_set k v d'
  end.

(** *** [json.loads]: a lexer, then a push-down parser over its tokens *)

Inductive token : Type :=
| TLBrace | TRBrace | TLBracket | TRBracket | TColon | TComma
| TString (s : string)
| TAtom (s : string).   (* a bare word: a number or a literal name *)

Inductive lex_mode : Type :=
| LIdle
| LAtom (acc : string)
| LStr (acc : string)
| LEsc (acc : string)
| LUni (acc : string) (digits : list nat).

Definition is_ws (c : ascii) : bool :=
  let n := nat_of_ascii c in
  (n =? 32) || (n =? 9) || (n =? 10) || (n =? 13).

Definition is_digit (c : ascii) : bool :=
  let n := nat_of_ascii c in (48 <=? n) && (n <=? 57).

Definition is_atom_char (c : ascii) : bool :=
  let n := nat_of_ascii c in
  is_digit c || ((65 <=? n) && (n <=? 90)) || ((97 <=? n) && (n <=? 122))
  || (n =? 43) || (n =? 45) || (n =? 46).

Definition hex_val (c : ascii) : option nat :=
  let n := nat_of_ascii c in
  if is_digit c then Some (n - 48)
  else if (65 <=? n) && (n <=? 70) then Some (n - 55)
  else if (97 <=? n) && (n <=? 102) then Some (n - 87)
  else None.

Definition snoc (s : string) (c : ascii) : string := s ++ String c EmptyString.

(** The code point of a four-digit unicode escape, written in UTF-8 (a
    surrogate is written on its own). *)
Definition utf8 (n : nat) : string :=
  if n <? 128 then String (ascii_of_nat n) EmptyString
  else if n <? 2048 then
    String (ascii_of_nat (192 + n / 64))
      (String (ascii_of_nat (128 + n mod 64)) EmptyString)
  else
    String (ascii_of_nat (224 + n / 4096))
      (String (ascii_of_nat (128 + (n / 64) mod 64))
         (String (ascii_of_nat (128 + n mod 64)) EmptyString)).

Definition hex4 (ds : list nat) : nat :=
  fold_left (fun acc d => 16 * acc + d) ds 0.

(** Reading [c] between tokens: the tokens it completes and the next mode. *)
Definition idle_step (c : ascii) : option (list token * lex_mode) :=
  let n := nat_of_ascii c in
  if is_ws c then Some ([], LIdle)
  else if n =? 123 then Some ([TLBrace], LIdle)
  else if n =? 125 then Some ([TRBrace], LIdle)
  else if n =? 91 then Some ([TLBracket], LIdle)
  else if n =? 93 then Some ([TRBracket], LIdle)
  else if n =? 58 then Some ([TColon], LIdle)
  else if n =? 44 then Some ([TComma], LIdle)
  else if n =? 34 then Some ([], LStr EmptyString)
  else if is_atom_char c then Some ([], LAtom (String c EmptyString))
  else None.

Definition unescape (c : ascii) : option ascii :=
  let n := nat_of_ascii c in
  if n =? 34 then Some c                          (* escaped quote *)
  else if n =? 92 then Some c                     (* escaped backslash *)
  else if n =? 47 then Some c                     (* escaped slash *)
  else if n =? 98 then Some (ascii_of_nat 8)      (* backspace *)
  else if n =? 102 then Some (ascii_of_nat 12)    (* form feed *)
  else if n =? 110 then Some (ascii_of_nat 10)    (* line feed *)
  else if n =? 114 then Some (ascii_of_nat 13)    (* carriage return *)
  else if n =? 116 then Some (ascii_of_nat 9)     (* tab *)
  else None.

Definition prepend (ts : list token) (r : option (list token))
  : option (list token) :=
  match r with
  | Some ts' => Some (ts ++ ts')
  | None => None
  end.

Fixpoint lex (s : string) (m : lex_mode) : option (list token) :=
  match s with
  | EmptyString =>
      match m with
      | LIdle => Some []
      | LAtom a => Some [TAtom a]
      | _ => None                       (* unterminated string *)
      end
  | String c s' =>
      match m with
      | LIdle =>
          match idle_step c with
          | Some (ts, m') => prepend ts (lex s' m')
          | None => None
          end
      | LAtom a =>
          if is_atom_char c then lex s' (LAtom (snoc a c))
          else match idle_step c with
               | Some (ts, m') => prepend (TAtom a :: ts) (lex s' m')
               | None => None
               end
      | LStr a =>
          let n := nat_of_ascii c in
          if n =? 34 then prepend [TString a] (lex s' LIdle)
          else if n =? 92 then lex s' (LEsc a)
          else if n <? 32 then None     (* control character, strict mode *)
          else lex s' (LStr (snoc a c))
      | LEsc a =>
          if nat_of_ascii c =? 117 then lex s' (LUni a [])
          else match unescape c with
               | Some c' => lex s' (LStr (snoc a c'))
               | None => None
               end
      | LUni a ds =>
          match hex_val c with
          | Some d =>
              if length ds =? 3
              then lex s' (LStr (a ++ utf8 (hex4 (ds ++ [d]))))
              else lex s' (LUni a (ds ++ [d]))
          | None => None
          end
      end
  end.

(** Numbers: an optional minus; 0, or a non-zero digit and digits; an
    optional fraction (a dot and digits); an optional exponent (e or E, an
    optional sign, digits). *)
Inductive num_state : Type :=
| NStart | NMinus | NZero | NInt | NDot | NFrac | NE | NESign | NExp.

Definition num_step (q : num_state) (c : ascii) : option num_state :=
  let n := nat_of_ascii c in
  let e := (n =? 101) || (n =? 69) in
  match q with
  | NStart =>
      if n =? 45 then Some NMinus
      else if n =? 48 then Some NZero
      else if is_digit c then Some NInt else None
  | NMinus =>
      if n =? 48 then Some NZero
      else if is_digit c then Some NInt else None
  | NZero =>
      if n =? 46 then Some NDot else if e then Some NE else None
  | NInt =>
      if is_digit c then Some NInt
      else if n =? 46 then Some NDot else if e then Some NE else None
  | NDot => if is_digit c then Some NFrac else None
  | NFrac => if is_digit c then Some NFrac else if e then Some NE else None
  | NE =>
      if (n =? 43) || (n =? 45) then Some NESign
      else if is_digit c then Some NExp else None
  | NESign => if is_digit c then Some NExp else None
  | NExp => if is_digit c then Some NExp else None
  end.

Fixpoint num_run (q : num_state) (s : string) : option num_state :=
  match s with
  | EmptyString => Some q
  | String c s' =>
      match num_step q c with
      | Some q' => num_run q' s'
      | None => None
      end
  end.

Fixpoint digits_value (acc : Z) (s : string) : Z :=
  match s with
  | EmptyString => acc
  | String c s' => digits_value (10 * acc + Z.of_nat (nat_of_ascii c - 48)) s'
  end.

Definition int_value (s : string) : Z :=
  match s with
  | String c s' =>
      if nat_of_ascii c =? 45 then (- digits_value 0 s')%Z else digits_value 0 s
  | EmptyString => 0%Z
  end.

Definition atom_value (a : string) : option json :=
  if String.eqb a "null" then Some JNull
  else if String.eqb a "true" then Some (JBool true)
  else if String.eqb a "false" then Some (JBool false)
  else if String.eqb a "NaN" || String.eqb a "Infinity"
          || String.eqb a "-Infinity" then Some (JFloat a)
  else match num_run NStart a with
       | Some NZero | Some NInt => Some (JInt (int_value a))
       | Some NFrac | Some NExp => Some (JFloat a)
       | _ => None
       end.

(** An open container waiting for the value being read. *)
Inductive frame : Type :=
| FArr (items : list json)
| FObj (members : list (string * json)) (key : string).

Inductive pstate : Type :=
| PValue (stk : list frame)         (* a value must come *)
| PArrOpen (stk : list frame)       (* array just opened: a value or its end *)
| PArrAfter (items : list json) (stk : list frame)  (* a comma or the end *)
| PObjOpen (stk : list frame)       (* object just opened: a key or its end *)
| PObjKey (members : list (string * json)) (stk : list frame)
| PObjColon (members : list (string * json)) (key : string) (stk : list frame)
| PObjAfter (members : list (string * json)) (stk : list frame)
| PDone (v : json).

(** The value [v] is complete: hand it to the innermost open container. *)
Definition reduce (v : json) (stk : list frame) : pstate :=
  match stk with
  | [] => PDone v
  | FArr items :: stk' => PArrAfter (items ++ [v]) stk'
  | FObj members key :: stk' => PObjAfter (assoc_set key v members) stk'
  end.

Definition value_step (t : token) (stk : list frame) : option pstate :=
  match t with
  | TAtom a =>
      match atom_value a with
      | Some v => Some (reduce v stk)
      | None => None
      end
  | TString s => Some (reduce (JStr s) stk)
  | TLBracket => Some (PArrOpen stk)
  | TLBrace => Some (PObjOpen stk)
  | _ => None
  end.

Definition pstep (st : pstate) (t : token) : option pstate :=
  match st with
  | PValue stk => value_step t stk
  | PArrOpen stk =>
      match t with
      | TRBracket => Some (reduce (JArr []) stk)
      | _ => value_step t (FArr [] :: stk)
      end
  | PArrAfter items stk =>
      match t with
      | TComma => Some (PValue (FArr items :: stk))
      | TRBracket => Some (reduce (JArr items) stk)
      | _ => None
      end
  | PObjOpen stk =>
      match t with
      | TRBrace => Some (reduce (JObj []) stk)
      | TString k => Some (PObjColon [] k stk)
      | _ => None
      end
  | PObjKey members stk =>
      match t with
      | TString k => Some (PObjColon members k stk)
      | _ => None
      end
  | PObjColon members k stk =>
      match t with
      | TColon => Some (PValue (FObj members k :: stk))
      | _ => None
      end
  | PObjAfter members stk =>
      match t with
      | TComma => Some (PObjKey members stk)
      | TRBrace => Some (reduce (JObj members) stk)
      | _ => None
      end
  | PDone _ => None                     (* extra data *)
  end.

Fixpoint prun (st : pstate) (ts : list token) : option json :=
  match ts with
  | [] => match st with PDone v => Some v | _ => None end
  | t :: ts' =>
      match pstep st t with
      | Some st' => prun st' ts'
      | None => None
      end
  end.

(** [json.loads(text)]; [None] stands for [json.JSONDecodeError]. Limits
    of the interpreter (recursion depth on deep nesting, the digit limit
    of integer conversion) are not part of the model. *)
Definition json_loads (text : string) : option json :=
  match lex text LIdle with
  | Some ts => prun (PValue []) ts
  | None => None
  end.

End Json.

(** ** [ResearchPaperProcessor] *)

Module Processor.
Import Text Json.

(** A folder, as [os.listdir] shows it, with the content of each file.
    A file that is written again keeps its place; a new one comes last.
    The order [os.listdir] gives is not specified: what is proved of one
    stage holds for every state, hence for every order of the folder it
    lists. The parsed store holds what [json.dump] wrote, read back by
    [json.load]: a decoded document. The folders exist ([__init__] makes
    them) and writing into them goes through. *)
Definition folder (A : Type) : Type := list (string * A).

(** Python exceptions that leave [combine_json_files]. *)
Inductive exn : Type :=
| KeyError (key : string)
| TypeError.

Inductive result (A : Type) : Type :=
| Ok (a : A)
| Raise (e : exn).
Arguments Ok {A} a.
Arguments Raise {A} e.

Inductive event : Type :=
| EvGenerate (display_name : string)   (* gemini_model.generate_content *)
| EvSleep (seconds : nat)              (* time.sleep *)
| EvGenError (base_name : string)      (* logging.error("Error generating ...") *)
| EvJsonError (base_name : string).    (* logging.error("JSON decoding error ...") *)

Record proc_state : Type := mkProc {
  response_folder : folder string;
  json_folder : folder json;
  output_file : option (list (string * json));   (* combined_data.json *)
  events : list event
}.

Definition proc_init : proc_state :=
  {| response_folder := []; json_folder := []; output_file := None;
     events := [] |}.

Definition emit (e : event) (st : proc_state) : proc_state :=
  {| response_folder := response_folder st;
     json_folder := json_folder st;
     output_file := output_file st;
     events := events st ++ [e] |}.

Definition write_response (name text : string) (st : proc_state) : proc_state :=
  {| response_folder := assoc_set name text (response_folder st);
     json_folder := json_folder st;
     output_file := output_file st;
     events := events st |}.

Definition write_json (name : string) (v : json) (st : proc_state) : proc_state :=
  {| response_folder := response_folder st;
     json_folder := assoc_set name v (json_folder st);
     output_file := output_file st;
     events := events st |}.

Definition set_output (o : option (list (string * json))) (st : proc_state)
  : proc_state :=
  {| response_folder := response_folder st;
     json_folder := json_folder st;
     output_file := o;
     events := events st |}.

Definition write_output (d : list (string * json)) (st : proc_state)
  : proc_state :=
  set_output (Some d) st.

(** The generative model, asked about an uploaded file (known by its
    display name): [Some text] is [response.text]; [None] means that
    [generate_content] or [response.text] raised. *)
Definition model : Type := string -> option string.

(** [upload_pdfs]: the names of the PDF folder that end in ".pdf"; the
    uploaded file is shown by its name. *)
Definition upload_pdfs (pdf_folder : list string) : list string :=
  filter (endswith ".pdf") pdf_folder.

(** One turn of the loop of [generate_responses] (lines 105-113). *)
Definition generate_one (gen : model) (st : proc_state) (pdf : string)
  : proc_state :=
  let base_name := replace ".pdf" "" pdf in
  let st := emit (EvGenerate pdf) st in
  match gen pdf with
  | Some response_text =>
      emit (EvSleep 15) (write_response (base_name ++ ".txt") response_text st)
  | None => emit (EvGenError base_name) st
  end.

Definition generate_responses (gen : model) (files : list string)
    (st : proc_state) : proc_state :=
  fold_left (generate_one gen) files st.

(** One turn of the loop of [convert_responses_to_json] (lines 122-131). *)
Definition convert_one (st : proc_state) (entry : string * string)
  : proc_state :=
  let (text_file, content) := entry in
  if endswith ".txt" text_file then
    let base_name := replace ".txt" "" text_file in
    match json_loads content with
    | Some json_data => write_json (base_name ++ ".json") json_data st
    | None => emit (EvJsonError base_name) st
    end
  else st.

Definition convert_responses_to_json (st : proc_state) : proc_state :=
  fold_left convert_one (response_folder st) st.

(** [json.load(f)['data']]. *)
Definition subscript_data (v : json) : result json :=
  match v with
  | JObj members =>
      match assoc_get "data" members with
      | Some data => Ok data
      | None => Raise (KeyError "data")
      end
  | _ => Raise TypeError
  end.

(** The loop of [combine_json_files] (lines 140-144); an exception ends it. *)
Fixpoint combine_loop (listing : folder json) (combined_data : list (string * json))
  : result (list (string * json)) :=
  match listing with
  | [] => Ok combined_data
  | (json_file, v) :: rest =>
      if endswith ".json" json_file then
        match subscript_data v with
        | Ok data =>
            combine_loop rest
              (assoc_set (replace ".json" "" json_file) data combined_data)
        | Raise e => Raise e
        end
      else combine_loop rest combined_data
  end.

(** [combine_json_files(output_file)], the output file lying outside the
    parsed store, as in [run]. The file is opened for writing only after
    the loop. *)
Definition combine_json_files (st : proc_state) : result proc_state :=
  match combine_loop (json_folder st) [] with
  | Ok combined_data => Ok (write_output combined_data st)
  | Raise e => Raise e
  end.

Definition run (gen : model) (pdf_folder : list string) (st : proc_state)
  : result proc_state :=
  let files := upload_pdfs pdf_folder in
  let st := generate_responses gen files st in
  let st := convert_responses_to_json st in
  combine_json_files st.

(** Calls made and pauses taken, counted on the events. *)
Definition calls (evs : list event) : nat :=
  length (filter (fun e => match e with EvGenerate _ => true | _ => false end) evs).

Definition pauses (evs : list event) : nat :=
  length (filter (fun e => match e with EvSleep _ => true | _ => false end) evs).

Definition answered (gen : model) (pdf : string) : bool :=
  match gen pdf with Some _ => true | None => false end.

(** *** The schema the prompt asks for *)





(** The parsed-store name a response file is converted to. *)
Definition target (text_file : string) : string :=
  replace ".txt" "" text_file ++ ".json".

(** What a listing of responses writes under [name]: the document of the
    last entry that is converted to [name] and decodes. *)
Fixpoint written (listing : folder string) (name : string) : option json :=
  match listing with
  | [] => None
  | (text_file, content) :: rest =>
      match written rest name with
      | Some v => Some v
      | None =>
          if endswith ".txt" text_file && String.eqb (target text_file) name
          then json_loads content
          else None
      end
  end.

(** Sample data for the concrete runs. *)
Definition dq : string := String (ascii_of_nat 34) EmptyString.

Definition sample_response (title_text : string) : string :=
  "{" ++ dq ++ "data" ++ dq ++ ": {" ++ dq ++ "title" ++ dq ++ ": "
      ++ dq ++ title_text ++ dq ++ "}}".



Definition two_parsed : proc_state :=
  write_json "2.json" (JObj [("data", JStr "second")])
    (write_json "1.json" (JObj [("data", JStr "first")]) proc_init).

Definition first_call_fails : model :=
  fun pdf => if String.eqb pdf "1.pdf" then None else Some (sample_response pdf).

Definition third_call_fails : model :=
  fun pdf => if String.eqb pdf "3.pdf" then None else Some (sample_response pdf).

End Processor.

(** ** What one row does, read off [try_row] and [on_except] *)

Module DownloaderViews.
Import Downloader.

(** The row's PDF is read, is within the page bound and is written. *)
Definition saves (max_pages : Z) (net : network) (x : nat * row) : bool :=
  match net (fst x) with
  | Pdf page_count true => (Z.of_nat page_count <=? max_pages)%Z
  | _ => false
  end.

(** The row's [try] ends in the [except]: the download or the reader
    raised, or the PDF is within the bound and cannot be written. *)
Definition fails (max_pages : Z) (net : network) (x : nat * row) : bool :=
  match net (fst x) with
  | Raised => true
  | Pdf page_count false => (Z.of_nat page_count <=? max_pages)%Z
  | Pdf _ true => false
  end.

(** The events of one loop turn. *)
Definition row_events (max_pages : Z) (net : network) (x : nat * row)
  : list event :=
  EvGet (fst x) (pdf_url (snd x))
  :: (if saves max_pages net x then [EvSave (fst x) (id (snd x) ++ ".pdf")]
      else if fails max_pages net x then [EvWarn (fst x) (pdf_url (snd x))]
      else []).

Definition file_name (x : nat * row) : string := id (snd x) ++ ".pdf".

(** The state after the loop turn of a row. *)
Definition after_row (max_pages : Z) (net : network) (x : nat * row)
    (st : dl_state) : dl_state :=
  {| valid_pdf_count :=
       valid_pdf_count st + (if saves max_pages net x then 1 else 0);
     pdf_page_counts := pdf_page_counts st ++ [recorded max_pages net (fst x)];
     events := events st ++ row_events max_pages net x |}.

(** [processed_rows = len(pdf_page_counts)] (line 90). *)
Definition processed_rows (st : dl_state) : nat := length (pdf_page_counts st).

(** The labels of the rows for which a warning was logged. *)
Definition warned (evs : list event) : list nat :=
  flat_map (fun e => match e with EvWarn i _ => [i] | _ => [] end) evs.

Definition two_same_id : DataFrame := [paper "a"; paper "a"].

Definition one_unsavable : network :=
  fun i => match i with 0 => Pdf 5 false | _ => Pdf 30 true end.

End DownloaderViews.

(** ** Names, logs and documents across the stages of the processor *)

Module ProcessorViews.
Import Text Json Processor.

(** No occurrence of [ext] starts inside [base] when [ext] is appended:
    [replace] then removes the appended [ext] only. *)
Fixpoint clean (ext base : string) : bool :=
  match base with
  | EmptyString => true
  | String _ rest => negb (prefix ext (base ++ ext)) && clean ext rest
  end.

Definition clean_id (doc : string) : bool :=
  clean ".pdf" doc && clean ".txt" doc && clean ".json" doc.

Definition pdf_name (doc : string) : string := doc ++ ".pdf".

(** A response the normalizer reads and cannot decode. *)
Definition undecodable (entry : string * string) : bool :=
  endswith ".txt" (fst entry) &&
  match json_loads (snd entry) with Some _ => false | None => true end.

Definition json_errors (evs : list event) : nat :=
  length (filter (fun e => match e with EvJsonError _ => true | _ => false end)
            evs).






Definition two_responses_twice : proc_state :=
  write_response "8.txt" "oops"
    (write_response "7.txt" (sample_response "a") proc_init).

Definition bad_then_good : proc_state :=
  write_json "2.json" (JObj [("data", JStr "second")])
    (write_json "1.json" (JArr []) proc_init).


Definition answers_all_but_b : model :=
  fun pdf => if String.eqb pdf "b.pdf" then None else Some (sample_response pdf).

End ProcessorViews.

(** ** [pdf_scraping/main.py] *)

Module Main.
Import Text Json Downloader Processor.

(** An [arxiv.Result], as far as [process_paper_metadata] reads it. *)
Record arxiv_result : Type := mkResult {
  short_id : string;              (* paper.get_short_id() *)
  result_pdf_url : string;        (* paper.pdf_url *)
  result_title : string;          (* paper.title *)
  author_names : list string;     (* [author.name for author in paper.authors] *)
  summary : string                (* paper.summary *)
}.

(** [sep.join(l)]. *)
Fixpoint join (sep : string) (l : list string) : string :=
  match l with
  | [] => EmptyString
  | [a] => a
  | a :: rest => a ++ sep ++ join sep rest
  end.

Definition metadata_row (p : arxiv_result) : row :=
  {| id := short_id p;
     pdf_url := result_pdf_url p;
     title := result_title p;
     authors := join ", " (author_names p);
     abstract := summary p |}.

Definition process_paper_metadata (papers : list arxiv_result) : DataFrame :=
  map metadata_row papers.

(** The folder "pdfs" after the downloader, the folder being empty when
    the script starts: the files written, each listed once. *)
Definition add_file (folder : list string) (name : string) : list string :=
  if existsb (String.eqb name) folder then folder else folder ++ [name].

Definition pdf_folder_after (evs : list Downloader.event) : list string :=
  fold_left add_file (saved_files evs) [].

(** The script: the downloader with its default [max_pages = 15], the
    returned frame (written to filtered_pdfs.csv), then the processor on
    the folder the downloader wrote to. *)
Definition main (net : network) (gen : model) (papers : list arxiv_result)
  : option (list (nat * row * nat)) * result proc_state :=
  let metadata_df := process_paper_metadata papers in
  let filtered := download_and_filter_pdfs 15 net metadata_df in
  (snd filtered, run gen (pdf_folder_after (Downloader.events (fst filtered)))
                   proc_init).

Definition sample_result (name : string) : arxiv_result :=
  {| short_id := name;
     result_pdf_url := "http://arxiv.org/pdf/" ++ name;
     result_title := "Title of " ++ name;
     author_names := ["A. Author"; "B. Author"];
     summary := "Abstract." |}.

End Main.

(** ** Facts about [download_and_filter_pdfs] *)

Module DownloaderFacts.
Import Downloader.

Lemma saved_files_app (l1 l2 : list event) :
  saved_files (l1 ++ l2) = saved_files l1 ++ saved_files l2.
Proof. apply flat_map_app. Qed.

Lemma attempted_app (l1 l2 : list event) :
  attempted (l1 ++ l2) = attempted l1 ++ attempted l2.
Proof. apply flat_map_app. Qed.

(** The three ways one row can go, with everything the row did. *)
Lemma try_row_cases cap max_pages net i r st :
  (try_row cap max_pages net i r st = None) \/
  (exists b, try_row cap max_pages net i r st =
     Some (append_count (recorded max_pages net i)
             (incr_valid (emit (EvSave i (id r ++ ".pdf")) st)), b)
     /\ b = (cap <=? valid_pdf_count st + 1)) \/
  (exists b, try_row cap max_pages net i r st =
     Some (append_count (recorded max_pages net i) st, b)
     /\ b = (cap <=? valid_pdf_count st)).
Proof.
  unfold try_row, recorded.
  destruct (net i) as [|pc cs]; [now left|].
  destruct (Z.of_nat pc <=? max_pages)%Z.
  - destruct cs; [|now left].
    right; left. eexists; split; reflexivity.
  - right; right. eexists; split; reflexivity.
Qed.

Lemma try_row_none_recorded cap max_pages net i r st :
  try_row cap max_pages net i r st = None -> recorded max_pages net i = 0.
Proof.
  unfold try_row, recorded.
  destruct (net i) as [|pc cs]; [reflexivity|].
  destruct (Z.of_nat pc <=? max_pages)%Z; [|discriminate].
  destruct cs; [discriminate|reflexivity].
Qed.

Ltac row_cases cap max_pages net i r st :=
  let H := fresh "Hrow" in
  let Hn := fresh "Hnone" in
  let b := fresh "b" in
  let Hb := fresh "Hb" in
  destruct (try_row_cases cap max_pages net i r st)
    as [Hn | [(b & H & Hb) | (b & H & Hb)]];
  [ pose proof (try_row_none_recorded _ _ _ _ _ _ Hn); rewrite Hn
  | rewrite H; destruct b
  | rewrite H; destruct b ].

Ltac leb_hyps :=
  repeat match goal with
  | H : true = (_ <=? _) |- _ => symmetry in H; apply Nat.leb_le in H
  | H : false = (_ <=? _) |- _ => symmetry in H; apply Nat.leb_gt in H
  end.

(** The counter never passes the cap. *)
Lemma loop_count_le cap max_pages net rows :
  forall st, 1 <= cap -> valid_pdf_count st < cap ->
  valid_pdf_count (download_loop cap max_pages net rows st) <= cap.
Proof.
  induction rows as [|[i r] rest IH]; intros st Hcap Hlt; simpl; [lia|].
  row_cases cap max_pages net i r (emit (EvGet i (pdf_url r)) st);
    simpl in *; leb_hyps; try lia; apply IH; simpl; lia.
Qed.

(** Every increment of the counter is one saved file, and conversely. *)
Lemma loop_saved_count cap max_pages net rows :
  forall st,
  length (saved_files (events (download_loop cap max_pages net rows st)))
    + valid_pdf_count st
  = valid_pdf_count (download_loop cap max_pages net rows st)
    + length (saved_files (events st)).
Proof.
  induction rows as [|[i r] rest IH]; intros st; simpl; [lia|].
  row_cases cap max_pages net i r (emit (EvGet i (pdf_url r)) st);
    try match goal with |- context [download_loop _ _ _ _ ?s] =>
      specialize (IH s); simpl in IH;
      repeat rewrite saved_files_app in IH; repeat rewrite length_app in IH
    end;
    simpl in *;
    repeat rewrite saved_files_app; repeat rewrite length_app; simpl; lia.
Qed.

(** One count per attempted row, in attempt order; the attempted rows are
    a prefix of the rows. *)
Lemma loop_prefix cap max_pages net rows :
  forall st, exists k,
    k <= length rows /\
    pdf_page_counts (download_loop cap max_pages net rows st)
      = pdf_page_counts st
        ++ map (fun x => recorded max_pages net (fst x)) (firstn k rows) /\
    attempted (events (download_loop cap max_pages net rows st))
      = attempted (events st) ++ map fst (firstn k rows).
Proof.
  induction rows as [|[i r] rest IH]; intros st; simpl.
  - exists 0; simpl. now rewrite !app_nil_r.
  - row_cases cap max_pages net i r (emit (EvGet i (pdf_url r)) st).
    + destruct (IH (on_except i r (emit (EvGet i (pdf_url r)) st)))
        as (k & Hk & Hc & Ha).
      exists (S k); simpl. rewrite Hc, Ha; simpl.
      rewrite !attempted_app; simpl. rewrite H, !app_nil_r, <- !app_assoc.
      repeat split; try reflexivity; lia.
    + exists 1; simpl. rewrite !attempted_app; simpl.
      rewrite !app_nil_r. repeat split; try reflexivity; lia.
    + match goal with |- context [download_loop _ _ _ _ ?s] =>
        destruct (IH s) as (k & Hk & Hc & Ha) end.
      exists (S k); simpl. rewrite Hc, Ha; simpl.
      rewrite !attempted_app; simpl. rewrite !app_nil_r, <- !app_assoc.
      repeat split; try reflexivity; lia.
    + exists 1; simpl. rewrite !attempted_app; simpl.
      repeat split; try reflexivity; lia.
    + match goal with |- context [download_loop _ _ _ _ ?s] =>
        destruct (IH s) as (k & Hk & Hc & Ha) end.
      exists (S k); simpl. rewrite Hc, Ha; simpl.
      rewrite !attempted_app; simpl. rewrite <- !app_assoc.
      repeat split; try reflexivity; lia.
Qed.

(** *** The frame and its labels *)

Lemma iterrows_length (df : DataFrame) : length (iterrows df) = length df.
Proof. unfold iterrows. rewrite length_combine, length_seq. lia. Qed.

Lemma combine_seq_fst {A} (l : list A) :
  forall s, map fst (combine (seq s (length l)) l) = seq s (length l).
Proof.
  induction l as [|a l IH]; intros s; simpl; [reflexivity|].
  now rewrite IH.
Qed.

Lemma iterrows_labels (df : DataFrame) :
  map fst (iterrows df) = seq 0 (length df).
Proof. apply combine_seq_fst. Qed.

Lemma combine_seq_In {A} (l : list A) :
  forall s i a, In (i, a) (combine (seq s (length l)) l) ->
  s <= i /\ nth_error l (i - s) = Some a.
Proof.
  induction l as [|x l IH]; intros s i a Hin; simpl in Hin; [contradiction|].
  destruct Hin as [Heq | Hin].
  - inversion Heq; subst. rewrite Nat.sub_diag. split; [lia|reflexivity].
  - apply IH in Hin. destruct Hin as [Hle Hnth]. split; [lia|].
    replace (i - s) with (S (i - S s)) by lia. exact Hnth.
Qed.

Lemma iterrows_In (df : DataFrame) i r :
  In (i, r) (iterrows df) -> nth_error df i = Some r.
Proof.
  intros Hin. apply combine_seq_In in Hin.
  rewrite Nat.sub_0_r in Hin. apply Hin.
Qed.



Lemma firstn_seq_le n :
  forall s k, k <= n -> firstn k (seq s n) = seq s k.
Proof.
  induction n as [|n IH]; intros s k Hk.
  - assert (k = 0) by lia. now subst.
  - destruct k as [|k]; simpl; [reflexivity|].
    rewrite IH by lia. reflexivity.
Qed.

Lemma firstn_In {A} (l : list A) :
  forall k x, In x (firstn k l) -> In x l.
Proof.
  induction l as [|a l IH]; intros [|k] x Hin; simpl in *; try contradiction.
  destruct Hin as [-> | Hin]; [now left|right; eauto].
Qed.

Lemma nth_error_combine_seq {A} (l : list A) :
  forall s i a, nth_error l i = Some a ->
  nth_error (combine (seq s (length l)) l) i = Some (s + i, a).
Proof.
  induction l as [|x l IH]; intros s [|i] a H; simpl in *; try discriminate.
  - inversion H; subst. now rewrite Nat.add_0_r.
  - rewrite Nat.add_succ_r. apply (IH (S s)). exact H.
Qed.

Lemma iterrows_firstn_In (df : DataFrame) k i r :
  i < k -> nth_error df i = Some r -> In (i, r) (firstn k (iterrows df)).
Proof.
  intros Hi Hnth. apply (nth_error_In _ i).
  rewrite nth_error_firstn.
  destruct (i <? k) eqn:E; [|apply Nat.ltb_ge in E; lia].
  unfold iterrows. now rewrite (nth_error_combine_seq df 0 i r Hnth).
Qed.

Lemma firstn_labels (df : DataFrame) k :
  k <= length df -> map fst (firstn k (iterrows df)) = seq 0 k.
Proof.
  intros Hk. rewrite <- firstn_map, iterrows_labels.
  now apply firstn_seq_le.
Qed.

Lemma combine_map_self {A B} (f : A -> B) (l : list A) :
  combine l (map f l) = map (fun x => (x, f x)) l.
Proof. induction l as [|a l IH]; simpl; [reflexivity|now rewrite IH]. Qed.

Lemma filter_subseq {A} (p : A -> bool) (l : list A) :
  subseq (filter p l) l.
Proof.
  induction l as [|a l IH]; simpl; [constructor|].
  destruct (p a); now constructor.
Qed.

Lemma subseq_map {A B} (f : A -> B) (l1 l2 : list A) :
  subseq l1 l2 -> subseq (map f l1) (map f l2).
Proof. induction 1; simpl; now constructor. Qed.

(** What a whole run leaves: the rows [0 .. k-1] were attempted, in that
    order; the column has their recorded counts; the assignment of the
    column goes through and the result is the filtered, annotated prefix. *)
Lemma run_spec cap max_pages net df :
  exists k,
    k <= length df /\
    attempted (events (fst (download_and_filter_with cap max_pages net df)))
      = seq 0 k /\
    pdf_page_counts (fst (download_and_filter_with cap max_pages net df))
      = map (recorded max_pages net) (seq 0 k) /\
    snd (download_and_filter_with cap max_pages net df)
      = Some (filter (page_filter max_pages) (annotated max_pages net k df)).
Proof.
  unfold download_and_filter_with; simpl.
  destruct (loop_prefix cap max_pages net (iterrows df) dl_init)
    as (k & Hk & Hc & Ha).
  rewrite iterrows_length in Hk. simpl in Hc, Ha.
  exists k. split; [exact Hk|]. split; [|split].
  - rewrite Ha. now apply firstn_labels.
  - rewrite Hc, <- (firstn_labels df k Hk), map_map. reflexivity.
  - assert (Hlen : length (firstn k (iterrows df)) = k)
      by (apply firstn_length_le; now rewrite iterrows_length).
    unfold trim_and_filter, assign_column. rewrite Hc.
    repeat rewrite ?length_map, ?Hlen.
    now rewrite Nat.eqb_refl, combine_map_self.
Qed.

Lemma annotated_In max_pages net k df i r c :
  In (i, r, c) (annotated max_pages net k df) ->
  nth_error df i = Some r /\ c = recorded max_pages net i /\
  In i (map fst (firstn k (iterrows df))).
Proof.
  unfold annotated. intros Hin. apply in_map_iff in Hin.
  destruct Hin as ([j r'] & Heq & Hin). simpl in Heq. inversion Heq; subst.
  split; [|split]; [|reflexivity|].
  - apply iterrows_In. eapply firstn_In; eauto.
  - apply in_map_iff. exists (i, r). now split.
Qed.

(** *** Stopping at the cap *)









(** *** The claims on [download_and_filter_pdfs] *)

(** C1. In every run, whatever the frame and however successes and
    failures alternate, the counter of saved PDFs ends at most at the cap
    of 100, and the files saved by the run are exactly as many as the
    counter says. *)
Theorem quota_never_exceeded (max_pages : Z) (net : network) (df : DataFrame) :
  valid_pdf_count (fst (download_and_filter_pdfs max_pages net df)) <= 100 /\
  length (saved_files (events (fst (download_and_filter_pdfs max_pages net df))))
  = valid_pdf_count (fst (download_and_filter_pdfs max_pages net df)).
Proof.
  unfold download_and_filter_pdfs, download_and_filter_with; simpl. split.
  - apply (loop_count_le quota_cap); unfold quota_cap; simpl; lia.
  - pose proof (loop_saved_count quota_cap max_pages net (iterrows df) dl_init)
      as H.
    simpl in H. lia.
Qed.

(** C2 (what the code does). A row whose [try] raised gets the count 0,
    and whenever [max_pages] is not negative the final filter keeps it:
    every attempted row whose download raised is returned, with count 0.
    On a frame of one row whose download raises, with [max_pages = 15],
    the row is returned although nothing was saved for it. *)
Theorem failed_download_is_returned :
  (forall max_pages net df i r,
      (0 <= max_pages)%Z ->
      In i (attempted (events (fst (download_and_filter_pdfs max_pages net df)))) ->
      nth_error df i = Some r ->
      net i = Raised ->
      exists ret,
        snd (download_and_filter_pdfs max_pages net df) = Some ret /\
        In (i, r, 0) ret) /\
  (forall d,
      snd (download_and_filter_pdfs 15 (fun _ => Raised) [d]) = Some [(0, d, 0)] /\
      saved_files (events (fst (download_and_filter_pdfs 15 (fun _ => Raised) [d])))
      = [] /\
      status_of (events (fst (download_and_filter_pdfs 15 (fun _ => Raised) [d]))) 0
      = RetrievalFailed).
Proof.
  split; [|repeat split].
  intros max_pages net df i r Hmax Hatt Hnth Hnet.
  unfold download_and_filter_pdfs in *.
  destruct (run_spec quota_cap max_pages net df) as (k & Hk & Ha & _ & Hs).
  rewrite Ha in Hatt. apply in_seq in Hatt.
  eexists. split; [exact Hs|].
  apply filter_In. split.
  - unfold annotated. apply in_map_iff. exists (i, r). split.
    + simpl. unfold recorded. now rewrite Hnet.
    + apply iterrows_firstn_In; [lia | exact Hnth].
  - unfold page_filter. simpl. now apply Z.leb_le.
Qed.

Lemma failed_download_is_returned_witness :
  exists ret,
    snd (download_and_filter_pdfs 15 first_download_fails
           [paper "a"; paper "b"]) = Some ret /\
    In (0, paper "a", 0) ret.
Proof.
  apply (proj1 failed_download_is_returned 15%Z first_download_fails
           [paper "a"; paper "b"] 0 (paper "a")).
  - apply Z.leb_le. reflexivity.
  - vm_compute. now left.
  - reflexivity.
  - reflexivity.
Defined.



(** C7. A row whose measured page count is above [max_pages] is not in
    the returned frame; and with measured counts 5, 20, 8 and
    [max_pages = 15] the returned frame holds exactly the first and the
    third row. *)
Theorem over_limit_rows_absent :
  (forall max_pages net df i pc can_save ret r c,
      net i = Pdf pc can_save ->
      (max_pages < Z.of_nat pc)%Z ->
      snd (download_and_filter_pdfs max_pages net df) = Some ret ->
      ~ In (i, r, c) ret) /\
  (forall net d1 d2 d3 s1 s2 s3,
      net 0 = Pdf 5 s1 -> net 1 = Pdf 20 s2 -> net 2 = Pdf 8 s3 ->
      exists ret,
        snd (download_and_filter_pdfs 15 net [d1; d2; d3]) = Some ret /\
        map fst ret = [(0, d1); (2, d3)]).
Proof.
  split.
  - intros max_pages net df i pc can_save ret r c Hnet Hgt Hret Hin.
    destruct (run_spec quota_cap max_pages net df) as (k & _ & _ & _ & Hs).
    unfold download_and_filter_pdfs in Hret. rewrite Hs in Hret.
    inversion Hret; subst. apply filter_In in Hin. destruct Hin as [Hin Hp].
    apply annotated_In in Hin. destruct Hin as (_ & Hc & _).
    unfold page_filter in Hp; simpl in Hp. apply Z.leb_le in Hp.
    unfold recorded in Hc. rewrite Hnet in Hc.
    destruct (Z.of_nat pc <=? max_pages)%Z eqn:E;
      [apply Z.leb_le in E; lia|]. subst c. lia.
  - intros net d1 d2 d3 s1 s2 s3 H0 H1 H2.
    unfold download_and_filter_pdfs, download_and_filter_with, trim_and_filter.
    simpl. unfold try_row. rewrite H0.
    destruct s1; simpl; unfold try_row; rewrite H1; simpl;
      unfold try_row; rewrite H2;
      destruct s3; simpl; eexists; split; reflexivity.
Qed.

Lemma over_limit_rows_absent_witness :
  ~ In (1, paper "b", 20) [(0, paper "a", 5); (2, paper "c", 5)].
Proof.
  apply (proj1 over_limit_rows_absent 15%Z one_long_paper
           [paper "a"; paper "b"; paper "c"] 1 20 true).
  - reflexivity.
  - reflexivity.
  - reflexivity.
Defined.

(** C10. One count is appended per attempted row, in attempt order: the
    attempted rows are the first [k] labels and the column is their
    recorded counts (the measured count, or 0 when the [try] ended in the
    [except]). So the assignment of the column goes through, every
    returned row carries its own row of the input and its own recorded
    count, and the returned rows are an order-preserving selection of the
    attempted prefix of the input. *)
Theorem page_counts_aligned (max_pages : Z) (net : network) (df : DataFrame) :
  exists k ret,
    k <= length df /\
    attempted (events (fst (download_and_filter_pdfs max_pages net df)))
      = seq 0 k /\
    pdf_page_counts (fst (download_and_filter_pdfs max_pages net df))
      = map (recorded max_pages net) (seq 0 k) /\
    snd (download_and_filter_pdfs max_pages net df) = Some ret /\
    (forall i r c, In (i, r, c) ret ->
       i < k /\ nth_error df i = Some r /\ c = recorded max_pages net i) /\
    subseq (map fst ret) (firstn k (iterrows df)).
Proof.
  destruct (run_spec quota_cap max_pages net df) as (k & Hk & Ha & Hc & Hs).
  exists k. eexists. unfold download_and_filter_pdfs.
  split; [exact Hk|]. split; [exact Ha|]. split; [exact Hc|].
  split; [exact Hs|]. split.
  - intros i r c Hin. apply filter_In in Hin. destruct Hin as [Hin _].
    apply annotated_In in Hin. destruct Hin as (Hnth & Hrec & Hlab).
    rewrite firstn_labels in Hlab by exact Hk. apply in_seq in Hlab.
    repeat split; [lia|exact Hnth|exact Hrec].
  - unfold annotated.
    set (f := fun x : nat * row => (x, recorded max_pages net (fst x))).
    pose proof (filter_subseq (page_filter max_pages)
                  (map f (firstn k (iterrows df)))) as Hsub.
    apply (subseq_map fst) in Hsub.
    rewrite map_map in Hsub. simpl in Hsub. rewrite map_id in Hsub.
    exact Hsub.
Qed.

End DownloaderFacts.

(** ** Facts about [ResearchPaperProcessor] *)

Module ProcessorFacts.
Import Text Json Processor.

Lemma assoc_get_set_same {A} (k : string) (v : A) (d : list (string * A)) :
  assoc_get k (assoc_set k v d) = Some v.
Proof.
  induction d as [|[k' v'] d IH]; simpl.
  - now rewrite String.eqb_refl.
  - destruct (String.eqb k' k) eqn:E; simpl.
    + now rewrite String.eqb_refl.
    + now rewrite E.
Qed.

Lemma assoc_get_set_other {A} (k k' : string) (v : A) (d : list (string * A)) :
  k' <> k -> assoc_get k (assoc_set k' v d) = assoc_get k d.
Proof.
  intros Hne. induction d as [|[k0 v0] d IH]; simpl.
  - destruct (String.eqb k' k) eqn:E; [|reflexivity].
    apply String.eqb_eq in E. contradiction.
  - destruct (String.eqb k0 k') eqn:E; simpl.
    + apply String.eqb_eq in E. subst k0.
      destruct (String.eqb k' k) eqn:E'; [|reflexivity].
      apply String.eqb_eq in E'. contradiction.
    + now rewrite IH.
Qed.

(** Every key of an updated dict is the new key or an old one. *)
Lemma assoc_get_set_inv {A} (k k' : string) (v w : A) (d : list (string * A)) :
  assoc_get k (assoc_set k' v d) = Some w ->
  (k = k' /\ w = v) \/ (k <> k' /\ assoc_get k d = Some w).
Proof.
  destruct (String.eqb k' k) eqn:E.
  - apply String.eqb_eq in E. subst. rewrite assoc_get_set_same.
    intros H; inversion H. now left.
  - apply String.eqb_neq in E. rewrite assoc_get_set_other by exact E.
    intros H. right. split; [congruence | exact H].
Qed.

(** *** [json.loads], [str.replace] and [str.endswith] on samples *)

Example json_loads_nested :
  json_loads (sample_response "T")
  = Some (JObj [("data", JObj [("title", JStr "T")])]).
Proof. reflexivity. Qed.

Example json_loads_scalars :
  json_loads " [1, -20, 2.5, 1e3, true, false, null] "
  = Some (JArr [JInt 1; JInt (-20); JFloat "2.5"; JFloat "1e3";
                JBool true; JBool false; JNull]).
Proof. reflexivity. Qed.

Example json_loads_rejects :
  map json_loads ["Sorry, I cannot read this PDF."; ""; "[1,]"; "{,}"; "01";
                  "1 2"; "tru"; "[1 2]"; "-"; "{} {}"; "[" ]
  = repeat None 11.
Proof. reflexivity. Qed.

Example replace_every_occurrence :
  replace ".txt" "" "a.txt.txt" = "a" /\
  replace ".pdf" "" "2301.00001v1.pdf" = "2301.00001v1" /\
  replace "aa" "b" "aaa" = "ba".
Proof. repeat split. Qed.

Example endswith_samples :
  map (endswith ".txt") ["a.txt"; ".txt"; "txt"; "a.txt.bak"; ""]
  = [true; true; false; false; false].
Proof. reflexivity. Qed.

(** *** [generate_responses] *)

Lemma generate_responses_app gen l1 l2 st :
  generate_responses gen (l1 ++ l2) st
  = generate_responses gen l2 (generate_responses gen l1 st).
Proof. apply fold_left_app. Qed.

Lemma generate_responses_cons gen pdf files st :
  generate_responses gen (pdf :: files) st
  = generate_responses gen files (generate_one gen st pdf).
Proof. reflexivity. Qed.

Lemma generate_one_failed gen st pdf :
  gen pdf = None ->
  generate_one gen st pdf
  = emit (EvGenError (replace ".pdf" "" pdf)) (emit (EvGenerate pdf) st).
Proof. intros H. unfold generate_one. now rewrite H. Qed.

(** The responses written depend on the response folder only. *)
Lemma generate_folder_only gen files :
  forall st1 st2, response_folder st1 = response_folder st2 ->
  response_folder (generate_responses gen files st1)
  = response_folder (generate_responses gen files st2).
Proof.
  induction files as [|pdf files IH]; intros st1 st2 H; simpl; [exact H|].
  apply IH. unfold generate_one. destruct (gen pdf); simpl; now rewrite ?H.
Qed.

Lemma generate_events_grow gen files :
  forall st e, In e (events st) ->
  In e (events (generate_responses gen files st)).
Proof.
  induction files as [|pdf files IH]; intros st e H; simpl; [exact H|].
  apply IH. unfold generate_one.
  destruct (gen pdf); simpl; repeat (apply in_or_app; left); exact H.
Qed.

(** A call is made for every file. *)
Lemma generate_calls_all gen files :
  forall st q, In q files ->
  In (EvGenerate q) (events (generate_responses gen files st)).
Proof.
  induction files as [|pdf files IH]; intros st q H; simpl; [contradiction|].
  destruct H as [-> | H]; [|now apply IH].
  apply generate_events_grow. unfold generate_one.
  destruct (gen q); simpl.
  - apply in_or_app; left. apply in_or_app; right. now left.
  - apply in_or_app; left. apply in_or_app; right. now left.
Qed.

Lemma generate_counts gen files :
  forall st,
  calls (events (generate_responses gen files st))
  = calls (events st) + length files /\
  pauses (events (generate_responses gen files st))
  = pauses (events st) + length (filter (answered gen) files).
Proof.
  induction files as [|pdf files IH]; intros st.
  - simpl. split; lia.
  - rewrite generate_responses_cons.
    destruct (IH (generate_one gen st pdf)) as [Hc Hp].
    rewrite Hc, Hp. unfold generate_one, answered, calls, pauses.
    cbn [filter]. destruct (gen pdf); simpl;
      repeat rewrite filter_app; repeat rewrite length_app; simpl; split; lia.
Qed.

(** *** [convert_responses_to_json] *)




(** What the parsed store holds under a name after a conversion. *)
Lemma convert_lookup listing name :
  forall st,
  assoc_get name (json_folder (fold_left convert_one listing st))
  = match written listing name with
    | Some v => Some v
    | None => assoc_get name (json_folder st)
    end.
Proof.
  induction listing as [|[f c] listing IH]; intros st; simpl; [reflexivity|].
  rewrite IH. destruct (written listing name); [reflexivity|].
  destruct (endswith ".txt" f); simpl; [|reflexivity].
  fold (target f).
  destruct (json_loads c) as [v|]; simpl.
  - destruct (String.eqb (target f) name) eqn:E.
    + apply String.eqb_eq in E. subst name. apply assoc_get_set_same.
    + apply String.eqb_neq in E. now apply assoc_get_set_other.
  - now destruct (String.eqb (target f) name).
Qed.


Lemma written_none listing name :
  written listing name = None ->
  forall f c, In (f, c) listing -> endswith ".txt" f = true ->
              target f = name -> json_loads c = None.
Proof.
  induction listing as [|[f0 c0] listing IH]; simpl; [contradiction|].
  destruct (written listing name) as [w|]; [discriminate|].
  intros H f c [Heq | Hin] Hf Ht.
  - inversion Heq; subst f0 c0. subst name.
    now rewrite Hf, String.eqb_refl in H.
  - now apply (IH eq_refl f c).
Qed.


(** *** [combine_json_files] *)

(** Every entry of the combined dict comes from a file of the parsed
    store, or was there before the loop. *)
Lemma combine_loop_source listing :
  forall acc out k d,
  combine_loop listing acc = Ok out ->
  assoc_get k out = Some d ->
  assoc_get k acc = Some d \/
  exists json_file v,
    In (json_file, v) listing /\ endswith ".json" json_file = true /\
    replace ".json" "" json_file = k /\ subscript_data v = Ok d.
Proof.
  induction listing as [|[f v] listing IH]; intros acc out k d Hrun Hget;
    simpl in Hrun.
  - inversion Hrun; subst. now left.
  - destruct (endswith ".json" f) eqn:Ef.
    + destruct (subscript_data v) as [data|e] eqn:Ed; [|discriminate].
      destruct (IH _ _ _ _ Hrun Hget) as [Hacc | (f' & v' & Hin & H1 & H2 & H3)].
      * apply assoc_get_set_inv in Hacc.
        destruct Hacc as [[-> ->] | [_ Hacc]]; [|now left].
        right. exists f, v. repeat split; auto. now left.
      * right. exists f', v'. repeat split; auto. now right.
    + destruct (IH _ _ _ _ Hrun Hget) as [Hacc | (f' & v' & Hin & H1 & H2 & H3)].
      * now left.
      * right. exists f', v'. repeat split; auto. now right.
Qed.

Lemma combine_loop_keeps listing :
  forall acc out k d,
  combine_loop listing acc = Ok out ->
  assoc_get k acc = Some d ->
  exists d', assoc_get k out = Some d'.
Proof.
  induction listing as [|[f v] listing IH]; intros acc out k d Hrun Hget;
    simpl in Hrun.
  - inversion Hrun; subst. eauto.
  - destruct (endswith ".json" f); [|eauto].
    destruct (subscript_data v) as [data|e]; [|discriminate].
    destruct (String.eqb (replace ".json" "" f) k) eqn:E.
    + apply String.eqb_eq in E. subst k.
      eapply IH; [exact Hrun | apply assoc_get_set_same].
    + apply String.eqb_neq in E.
      eapply IH; [exact Hrun|]. rewrite assoc_get_set_other; eauto.
Qed.

(** When the files of one key hold the same document, the entry of a key
    is the "data" of any of its files. *)
Lemma combine_loop_complete listing :
  forall acc out f v d,
  combine_loop listing acc = Ok out ->
  In (f, v) listing ->
  endswith ".json" f = true ->
  subscript_data v = Ok d ->
  (forall f' v', In (f', v') listing -> endswith ".json" f' = true ->
     replace ".json" "" f' = replace ".json" "" f -> v' = v) ->
  assoc_get (replace ".json" "" f) out = Some d.
Proof.
  induction listing as [|[f0 v0] listing IH];
    intros acc out f v d Hrun Hin Hf Hd Hsame; [contradiction|].
  simpl in Hrun. destruct Hin as [Heq | Hin].
  - inversion Heq; subst f0 v0. rewrite Hf, Hd in Hrun.
    destruct (combine_loop_keeps _ _ _ _ _ Hrun
                (assoc_get_set_same (replace ".json" "" f) d acc))
      as [d' Hd'].
    rewrite Hd'. f_equal.
    destruct (combine_loop_source _ _ _ _ _ Hrun Hd')
      as [Hacc | (f' & v' & Hin' & Hf' & Hk & Hd'')].
    + rewrite assoc_get_set_same in Hacc. congruence.
    + rewrite (Hsame f' v' (or_intror Hin') Hf' Hk) in Hd''. congruence.
  - assert (Hsame' : forall f' v', In (f', v') listing ->
              endswith ".json" f' = true ->
              replace ".json" "" f' = replace ".json" "" f -> v' = v)
      by (intros; eapply Hsame; eauto; now right).
    destruct (endswith ".json" f0); [|eauto].
    destruct (subscript_data v0) as [data|e]; [|discriminate]. eauto.
Qed.

Lemma combine_loop_ok_inv listing :
  forall acc out, combine_loop listing acc = Ok out ->
  forall f v, In (f, v) listing -> endswith ".json" f = true ->
  exists d, subscript_data v = Ok d.
Proof.
  induction listing as [|[f0 v0] listing IH]; intros acc out Hrun f v Hin Hf;
    [contradiction|].
  simpl in Hrun. destruct Hin as [Heq | Hin].
  - inversion Heq; subst f0 v0. rewrite Hf in Hrun.
    destruct (subscript_data v) as [data|e]; [eauto|discriminate].
  - destruct (endswith ".json" f0); [|eauto].
    destruct (subscript_data v0) as [data|e]; [eauto|discriminate].
Qed.

Lemma combine_loop_total listing :
  (forall f v, In (f, v) listing -> endswith ".json" f = true ->
     exists d, subscript_data v = Ok d) ->
  forall acc, exists out, combine_loop listing acc = Ok out.
Proof.
  induction listing as [|[f0 v0] listing IH]; intros Hall acc; simpl; [eauto|].
  assert (Hall' : forall f v, In (f, v) listing -> endswith ".json" f = true ->
            exists d, subscript_data v = Ok d)
    by (intros; eapply Hall; eauto; now right).
  destruct (endswith ".json" f0) eqn:Ef; [|eauto].
  destruct (Hall f0 v0 (or_introl eq_refl) Ef) as [d ->]. eauto.
Qed.

(** The corpus has the same entries in whatever order the parsed store
    is listed, as long as the files of one key hold the same document. *)
Lemma combine_any_listing_order (l1 l2 : folder json) c1 :
  Permutation l1 l2 ->
  (forall f v f' v', In (f, v) l1 -> In (f', v') l1 ->
     endswith ".json" f = true -> endswith ".json" f' = true ->
     replace ".json" "" f' = replace ".json" "" f -> v' = v) ->
  combine_loop l1 [] = Ok c1 ->
  exists c2, combine_loop l2 [] = Ok c2 /\
             forall k, assoc_get k c1 = assoc_get k c2.
Proof.
  intros Hperm Hsame Hrun1.
  assert (Hback : forall x, In x l2 -> In x l1)
    by (intro x; apply Permutation_in; now apply Permutation_sym).
  destruct (combine_loop_total l2) with (acc := @nil (string * json))
    as [c2 Hrun2].
  { intros f v Hin Hf.
    eapply combine_loop_ok_inv; [exact Hrun1 | apply Hback; exact Hin | exact Hf]. }
  exists c2. split; [exact Hrun2|]. intros k.
  destruct (assoc_get k c1) as [d|] eqn:E1.
  - destruct (combine_loop_source _ _ _ _ _ Hrun1 E1)
      as [Hacc | (f & v & Hin & Hf & Hk & Hd)]; [discriminate|].
    subst k. symmetry.
    apply (combine_loop_complete l2 [] c2 f v d Hrun2); auto.
    + eapply Permutation_in; eauto.
    + intros f' v' Hin' Hf' Hk'. eapply (Hsame f v f' v'); eauto.
  - destruct (assoc_get k c2) as [d|] eqn:E2; [|reflexivity].
    destruct (combine_loop_source _ _ _ _ _ Hrun2 E2)
      as [Hacc | (f & v & Hin & Hf & Hk & Hd)]; [discriminate|].
    subst k.
    assert (H1 : assoc_get (replace ".json" "" f) c1 = Some d).
    { apply (combine_loop_complete l1 [] c1 f v d Hrun1); auto.
      intros f' v' Hin' Hf' Hk'. eapply Hsame; eauto. }
    congruence.
Qed.

(** *** The claims on the processor *)

(** C4 (what the code does). The pause of 15 seconds stands inside the
    [try], after the response is written: a run makes one call per file
    but pauses only once per answered call. When the call for the first
    of two files raises, the error is logged and the second call follows
    with no pause in between. *)
Theorem no_pause_after_failed_call :
  (forall gen files,
      calls (events (generate_responses gen files proc_init)) = length files /\
      pauses (events (generate_responses gen files proc_init))
      = length (filter (answered gen) files)) /\
  events (generate_responses first_call_fails ["1.pdf"; "2.pdf"] proc_init)
  = [EvGenerate "1.pdf"; EvGenError "1"; EvGenerate "2.pdf"; EvSleep 15].
Proof.
  split; [|reflexivity].
  intros gen files.
  pose proof (generate_counts gen files proc_init) as [Hc Hp].
  simpl in Hc, Hp. now rewrite Hc, Hp.
Qed.




(** C6. A run of the aggregation that ends leaves the parsed store as it
    was, and a second run on it writes the same corpus again; the corpus
    does not depend on what the output file held before; and every entry
    of the corpus is the "data" of a ".json" file of the parsed store. *)
Theorem aggregation_is_idempotent (st st' : proc_state) :
  combine_json_files st = Ok st' ->
  combine_json_files st' = Ok st' /\
  json_folder st' = json_folder st /\
  (forall prior, combine_json_files (set_output prior st) = Ok st') /\
  (exists corpus,
      output_file st' = Some corpus /\
      forall k d, assoc_get k corpus = Some d ->
        exists json_file v,
          In (json_file, v) (json_folder st) /\
          endswith ".json" json_file = true /\
          replace ".json" "" json_file = k /\
          subscript_data v = Ok d).
Proof.
  unfold combine_json_files. intros H.
  destruct (combine_loop (json_folder st) []) as [corpus|e] eqn:E;
    [|discriminate].
  inversion H; subst st'. simpl. rewrite E.
  split; [reflexivity|]. split; [reflexivity|]. split; [reflexivity|].
  exists corpus. split; [reflexivity|].
  intros k d Hget.
  destruct (combine_loop_source _ _ _ _ _ E Hget) as [Hacc | Hsrc];
    [discriminate | exact Hsrc].
Qed.

Lemma aggregation_is_idempotent_witness :
  combine_json_files
    (write_output [("1", JStr "first"); ("2", JStr "second")] two_parsed)
  = Ok (write_output [("1", JStr "first"); ("2", JStr "second")] two_parsed).
Proof.
  apply (aggregation_is_idempotent two_parsed). reflexivity.
Defined.



(** C9. A call that raises does not end the batch: the error is logged,
    the loop goes on with the files after it, a call is made for each of
    them, and the response folder ends as if the file had not been in the
    batch (nothing is written for it). With three PDFs of which the third
    call raises and the first two responses decode to objects with a
    "data" member, a run from empty folders ends with a corpus of exactly
    the first two documents; and this corpus holds the same two entries
    in whatever order the response folder and the parsed store are
    listed. *)
Theorem extraction_failure_is_isolated :
  (forall (gen : model) (before after : list string) (pdf : string)
          (st : proc_state),
      gen pdf = None ->
      generate_responses gen (before ++ pdf :: after) st
        = generate_responses gen after
            (emit (EvGenError (replace ".pdf" "" pdf))
               (emit (EvGenerate pdf) (generate_responses gen before st))) /\
      response_folder (generate_responses gen (before ++ pdf :: after) st)
        = response_folder (generate_responses gen (before ++ after) st) /\
      In (EvGenError (replace ".pdf" "" pdf))
         (events (generate_responses gen (before ++ pdf :: after) st)) /\
      (forall q, In q after ->
         In (EvGenerate q)
            (events (generate_responses gen (before ++ pdf :: after) st)))) /\
  (forall (gen : model) (t1 t2 : string) (m1 m2 : list (string * json))
          (d1 d2 : json),
      gen "1.pdf" = Some t1 -> gen "2.pdf" = Some t2 -> gen "3.pdf" = None ->
      json_loads t1 = Some (JObj m1) -> json_loads t2 = Some (JObj m2) ->
      assoc_get "data" m1 = Some d1 -> assoc_get "data" m2 = Some d2 ->
      (exists st,
          run gen ["1.pdf"; "2.pdf"; "3.pdf"] proc_init = Ok st /\
          response_folder st = [("1.txt", t1); ("2.txt", t2)] /\
          output_file st = Some [("1", d1); ("2", d2)]) /\
      (forall resp_listing json_listing,
          Permutation
            (response_folder
               (generate_responses gen ["1.pdf"; "2.pdf"; "3.pdf"] proc_init))
            resp_listing ->
          Permutation
            (json_folder
               (fold_left convert_one resp_listing
                  (generate_responses gen ["1.pdf"; "2.pdf"; "3.pdf"] proc_init)))
            json_listing ->
          exists corpus,
            combine_loop json_listing [] = Ok corpus /\
            forall k, assoc_get k corpus = assoc_get k [("1", d1); ("2", d2)])).
Proof.
  split.
  - intros gen before after pdf st Hfail.
    rewrite generate_responses_app, generate_responses_cons.
    rewrite (generate_one_failed _ _ _ Hfail).
    split; [reflexivity|]. split; [|split].
    + rewrite generate_responses_app. now apply generate_folder_only.
    + apply generate_events_grow. simpl. apply in_or_app. right. now left.
    + intros q Hq. now apply generate_calls_all.
  - intros gen t1 t2 m1 m2 d1 d2 G1 G2 G3 J1 J2 D1 D2.
    assert (Hgen : generate_responses gen ["1.pdf"; "2.pdf"; "3.pdf"] proc_init
                   = {| response_folder := [("1.txt", t1); ("2.txt", t2)];
                        json_folder := [];
                        output_file := None;
                        events := [EvGenerate "1.pdf"; EvSleep 15;
                                   EvGenerate "2.pdf"; EvSleep 15;
                                   EvGenerate "3.pdf"; EvGenError "3"] |}).
    { cbv - [json_loads assoc_get]. rewrite G1, G2, G3. reflexivity. }
    split.
    + unfold run.
      change (upload_pdfs ["1.pdf"; "2.pdf"; "3.pdf"])
        with ["1.pdf"; "2.pdf"; "3.pdf"].
      rewrite Hgen.
      cbv - [json_loads assoc_get]. rewrite J1, J2.
      cbv - [json_loads assoc_get]. rewrite D1, D2.
      eexists. split; [reflexivity|]. split; reflexivity.
    + intros resp_listing json_listing P1 P2. rewrite Hgen in P1, P2.
      cbn [response_folder] in P1.
      apply Permutation_length_2_inv in P1.
      destruct P1 as [-> | ->];
        cbv - [json_loads assoc_get] in P2; rewrite J1, J2 in P2;
        cbv - [json_loads assoc_get] in P2;
        apply Permutation_length_2_inv in P2;
        destruct P2 as [-> | ->];
        cbv - [json_loads assoc_get]; rewrite D1, D2;
        (eexists; split; [reflexivity|]);
        intros k; cbn [assoc_get]; try reflexivity;
        destruct (String.eqb "2" k) eqn:E2; destruct (String.eqb "1" k) eqn:E1;
        try reflexivity;
        apply String.eqb_eq in E1; apply String.eqb_eq in E2;
        rewrite <- E1 in E2; discriminate.
Qed.

Lemma extraction_failure_is_isolated_witness :
  response_folder
    (generate_responses third_call_fails (["1.pdf"; "2.pdf"] ++ ["3.pdf"])
       proc_init)
  = response_folder
      (generate_responses third_call_fails (["1.pdf"; "2.pdf"] ++ []) proc_init)
  /\
  exists st,
    run third_call_fails ["1.pdf"; "2.pdf"; "3.pdf"] proc_init = Ok st /\
    response_folder st
      = [("1.txt", sample_response "1.pdf"); ("2.txt", sample_response "2.pdf")] /\
    output_file st
      = Some [("1", JObj [("title", JStr "1.pdf")]);
              ("2", JObj [("title", JStr "2.pdf")])].
Proof.
  split.
  - refine (proj1 (proj2 (proj1 extraction_failure_is_isolated
              third_call_fails ["1.pdf"; "2.pdf"] [] "3.pdf" proc_init _))).
    reflexivity.
  - refine (proj1 (proj2 extraction_failure_is_isolated third_call_fails
              (sample_response "1.pdf") (sample_response "2.pdf")
              [("data", JObj [("title", JStr "1.pdf")])]
              [("data", JObj [("title", JStr "2.pdf")])]
              (JObj [("title", JStr "1.pdf")]) (JObj [("title", JStr "2.pdf")])
              _ _ _ _ _ _ _)); vm_compute; reflexivity.
Defined.

End ProcessorFacts.

(** ** Facts about strings *)

Module TextFacts.
Import Text ProcessorViews.

Lemma length_append (s t : string) :
  String.length (s ++ t) = String.length s + String.length t.
Proof. induction s as [|c s IH]; simpl; [reflexivity|now rewrite IH]. Qed.

Lemma append_nil_r (s : string) : (s ++ "")%string = s.
Proof. induction s as [|c s IH]; simpl; [reflexivity|now rewrite IH]. Qed.

Lemma append_inj_l (s1 s2 t : string) :
  (s1 ++ t)%string = (s2 ++ t)%string -> s1 = s2.
Proof.
  revert s2. induction s1 as [|c s1 IH]; intros [|d s2] H; simpl in H.
  - reflexivity.
  - apply (f_equal String.length) in H. simpl in H.
    rewrite length_append in H. lia.
  - apply (f_equal String.length) in H. simpl in H.
    rewrite length_append in H. lia.
  - inversion H. f_equal. now apply IH.
Qed.

Lemma prefix_refl (s : string) : prefix s s = true.
Proof.
  induction s as [|c s IH]; simpl; [reflexivity|].
  destruct (ascii_dec c c); [exact IH | congruence].
Qed.

Lemma replace_skip_all (old new s : string) :
  forall k, String.length s <= k -> replace_from old new k s = EmptyString.
Proof.
  induction s as [|c s IH]; intros k Hk; simpl; [reflexivity|].
  destruct k as [|k]; simpl in Hk; [lia|]. apply IH. lia.
Qed.

(** Removing the extension that was appended gives the name back, when
    the extension occurs nowhere else. *)
Lemma replace_appended (ext base : string) :
  clean ext base = true -> replace ext "" (base ++ ext) = base.
Proof.
  unfold replace. induction base as [|c base IH]; intros Hclean.
  - simpl. destruct ext as [|e ext]; [reflexivity|].
    cbn [replace_from]. rewrite prefix_refl. simpl.
    rewrite Nat.sub_0_r. apply replace_skip_all. lia.
  - cbn [clean] in Hclean. apply andb_true_iff in Hclean.
    destruct Hclean as [Hp Hc]. apply negb_true_iff in Hp.
    change (String c base ++ ext)%string with (String c (base ++ ext)) in *.
    cbn [replace_from]. rewrite Hp. f_equal. now apply IH.
Qed.

Lemma substring_all (s : string) : substring 0 (String.length s) s = s.
Proof. induction s as [|c s IH]; simpl; [reflexivity|now rewrite IH]. Qed.

Lemma substring_appended (base ext : string) :
  substring (String.length base) (String.length ext) (base ++ ext) = ext.
Proof.
  induction base as [|c base IH]; simpl; [apply substring_all | exact IH].
Qed.

Lemma endswith_appended (ext base : string) :
  endswith ext (base ++ ext) = true.
Proof.
  unfold endswith. rewrite length_append.
  replace (String.length ext <=? String.length base + String.length ext)
    with true by (symmetry; apply Nat.leb_le; lia).
  replace (String.length base + String.length ext - String.length ext)
    with (String.length base) by lia.
  rewrite substring_appended. apply String.eqb_refl.
Qed.

End TextFacts.

(** ** More on [download_and_filter_pdfs] *)

Module DownloaderMore.
Import Downloader DownloaderViews DownloaderFacts TextFacts.

(** One turn of the loop. *)
Lemma loop_turn cap max_pages net x rest st :
  valid_pdf_count st < cap ->
  download_loop cap max_pages net (x :: rest) st
  = if saves max_pages net x && (cap <=? valid_pdf_count st + 1)
    then after_row max_pages net x st
    else download_loop cap max_pages net rest (after_row max_pages net x st).
Proof.
  intros Hlt. destruct x as [i r]. simpl download_loop.
  assert (Ec : (cap <=? valid_pdf_count st) = false)
    by (apply Nat.leb_gt; exact Hlt).
  unfold after_row, row_events, saves, fails, try_row, recorded, on_except,
    append_count, incr_valid, emit. simpl.
  destruct (net i) as [|pc [|]]; simpl;
    try destruct (Z.of_nat pc <=? max_pages)%Z; simpl;
    rewrite ?Ec; rewrite <- ?app_assoc; rewrite ?Nat.add_0_r;
    rewrite ?app_nil_r; reflexivity.
Qed.

(** The whole loop: the first [k] rows are processed, each leaving its
    events and its count; the counter grows by the rows saved; and rows
    are left over only when the last processed row was saved and brought
    the counter to the cap. *)
Lemma loop_trace cap max_pages net rows :
  forall st, valid_pdf_count st < cap ->
  exists k,
    k <= length rows /\
    pdf_page_counts (download_loop cap max_pages net rows st)
      = pdf_page_counts st
        ++ map (fun x => recorded max_pages net (fst x)) (firstn k rows) /\
    events (download_loop cap max_pages net rows st)
      = events st ++ flat_map (row_events max_pages net) (firstn k rows) /\
    valid_pdf_count (download_loop cap max_pages net rows st)
      = valid_pdf_count st
        + length (filter (saves max_pages net) (firstn k rows)) /\
    (k < length rows ->
       valid_pdf_count (download_loop cap max_pages net rows st) = cap /\
       exists x, nth_error rows (k - 1) = Some x /\ 0 < k /\
                 saves max_pages net x = true).
Proof.
  induction rows as [|x rest IH]; intros st Hlt.
  - exists 0. simpl. rewrite !app_nil_r. repeat split; try lia.
  - rewrite loop_turn by exact Hlt.
    destruct (saves max_pages net x) eqn:Es; simpl andb.
    + destruct (cap <=? valid_pdf_count st + 1) eqn:Ec.
      * apply Nat.leb_le in Ec. exists 1. simpl. rewrite Es. simpl.
        split; [lia|]. split; [reflexivity|].
        split; [unfold row_events; now rewrite Es|].
        split; [reflexivity|]. intros _. split; [lia|].
        exists x. repeat split; [lia | exact Es].
      * apply Nat.leb_gt in Ec.
        destruct (IH (after_row max_pages net x st))
          as (k & Hk & Hc & He & Hv & Hstop);
          [simpl; rewrite Es; lia|].
        exists (S k).
        cbn [firstn map flat_map filter after_row pdf_page_counts events
             valid_pdf_count length] in *.
        rewrite Es in Hv.
        rewrite Hc, He, Hv, ?Es, <- !app_assoc. cbn [app length].
        split; [lia|]. split; [reflexivity|]. split; [reflexivity|].
        split; [lia|]. intros Hlt'.
        destruct Hstop as [Hcap (y & Hy & Hpos & Hsy)]; [lia|].
        rewrite Hv in Hcap.
        split; [lia|].
        exists y. replace (S k - 1) with (S (k - 1)) by lia.
        cbn [nth_error]. repeat split; auto.
    + destruct (IH (after_row max_pages net x st))
        as (k & Hk & Hc & He & Hv & Hstop);
        [simpl; rewrite Es; lia|].
      exists (S k).
        cbn [firstn map flat_map filter after_row pdf_page_counts events
             valid_pdf_count length] in *.
        rewrite Es in Hv.
        rewrite Hc, He, Hv, ?Es, <- !app_assoc. cbn [app length].
        split; [lia|]. split; [reflexivity|]. split; [reflexivity|].
        split; [lia|]. intros Hlt'.
        destruct Hstop as [Hcap (y & Hy & Hpos & Hsy)]; [lia|].
        rewrite Hv in Hcap.
        split; [lia|].
        exists y. replace (S k - 1) with (S (k - 1)) by lia.
        cbn [nth_error]. repeat split; auto.
Qed.

Lemma saves_not_fails max_pages net x :
  saves max_pages net x = true -> fails max_pages net x = false.
Proof.
  unfold saves, fails. destruct (net (fst x)) as [|pc [|]]; easy.
Qed.

Lemma saves_recorded max_pages net x :
  saves max_pages net x = true ->
  exists pc, net (fst x) = Pdf pc true /\ (Z.of_nat pc <= max_pages)%Z /\
             recorded max_pages net (fst x) = pc.
Proof.
  unfold saves, recorded. destruct (net (fst x)) as [|pc [|]]; try easy.
  intros H. exists pc. rewrite H. apply Z.leb_le in H. auto.
Qed.

Lemma fails_recorded max_pages net x :
  fails max_pages net x = true -> recorded max_pages net (fst x) = 0.
Proof.
  unfold fails, recorded. destruct (net (fst x)) as [|pc [|]]; try easy.
  now intros ->.
Qed.

Lemma saved_files_row_events max_pages net l :
  saved_files (flat_map (row_events max_pages net) l)
  = map file_name (filter (saves max_pages net) l).
Proof.
  induction l as [|x l IH]; [reflexivity|].
  cbn [flat_map filter]. rewrite saved_files_app, IH. unfold row_events.
  destruct (saves max_pages net x); [reflexivity|].
  now destruct (fails max_pages net x).
Qed.

Lemma warned_app l1 l2 : warned (l1 ++ l2) = warned l1 ++ warned l2.
Proof. apply flat_map_app. Qed.

Lemma warned_row_events max_pages net l :
  warned (flat_map (row_events max_pages net) l)
  = map fst (filter (fails max_pages net) l).
Proof.
  induction l as [|x l IH]; [reflexivity|].
  cbn [flat_map filter]. rewrite warned_app, IH. unfold row_events.
  destruct (saves max_pages net x) eqn:Es.
  - now rewrite (saves_not_fails _ _ _ Es).
  - now destruct (fails max_pages net x).
Qed.

Lemma row_events_save max_pages net l i f :
  In (EvSave i f) (flat_map (row_events max_pages net) l) <->
  exists x, In x l /\ saves max_pages net x = true /\ fst x = i /\
            f = file_name x.
Proof.
  rewrite in_flat_map. split.
  - intros (x & Hx & Hin). exists x. unfold row_events in Hin.
    destruct Hin as [Heq | Hin]; [discriminate|].
    destruct (saves max_pages net x).
    + destruct Hin as [Heq | []]. inversion Heq. auto.
    + destruct (fails max_pages net x); [|contradiction].
      destruct Hin as [Heq | []]. discriminate.
  - intros (x & Hx & Hs & <- & ->). exists x. split; [exact Hx|].
    unfold row_events. rewrite Hs. right. now left.
Qed.

Lemma row_events_warn max_pages net l i u :
  In (EvWarn i u) (flat_map (row_events max_pages net) l) <->
  exists x, In x l /\ fails max_pages net x = true /\ fst x = i /\
            u = pdf_url (snd x).
Proof.
  rewrite in_flat_map. split.
  - intros (x & Hx & Hin). exists x. unfold row_events in Hin.
    destruct Hin as [Heq | Hin]; [discriminate|].
    destruct (saves max_pages net x).
    + destruct Hin as [Heq | []]. discriminate.
    + destruct (fails max_pages net x); [|contradiction].
      destruct Hin as [Heq | []]. inversion Heq. auto.
  - intros (x & Hx & Hf & <- & ->). exists x. split; [exact Hx|].
    unfold row_events.
    destruct (saves max_pages net x) eqn:Es.
    + rewrite (saves_not_fails _ _ _ Es) in Hf. discriminate.
    + rewrite Hf. right. now left.
Qed.

(** A whole run, in terms of [processed_rows]. *)
Lemma run_trace cap max_pages net df :
  1 <= cap ->
  length (pdf_page_counts (fst (download_and_filter_with cap max_pages net df)))
    <= length df /\
  events (fst (download_and_filter_with cap max_pages net df))
    = flat_map (row_events max_pages net)
        (firstn (length (pdf_page_counts
                           (fst (download_and_filter_with cap max_pages net df))))
           (iterrows df)) /\
  valid_pdf_count (fst (download_and_filter_with cap max_pages net df))
    = length (filter (saves max_pages net)
        (firstn (length (pdf_page_counts
                           (fst (download_and_filter_with cap max_pages net df))))
           (iterrows df))) /\
  snd (download_and_filter_with cap max_pages net df)
    = Some (filter (page_filter max_pages)
              (annotated max_pages net
                 (length (pdf_page_counts
                            (fst (download_and_filter_with cap max_pages net df))))
                 df)) /\
  (length (pdf_page_counts (fst (download_and_filter_with cap max_pages net df)))
     < length df ->
   valid_pdf_count (fst (download_and_filter_with cap max_pages net df)) = cap /\
   exists x,
     nth_error (iterrows df)
       (length (pdf_page_counts
                  (fst (download_and_filter_with cap max_pages net df))) - 1)
     = Some x /\
     saves max_pages net x = true /\
     0 < length (pdf_page_counts
                   (fst (download_and_filter_with cap max_pages net df)))).
Proof.
  intros Hcap.
  destruct (run_spec cap max_pages net df) as (k' & Hk' & _ & Hc' & Hs).
  rewrite Hs. clear Hs.
  unfold download_and_filter_with in *. cbn [fst snd] in *.
  destruct (loop_trace cap max_pages net (iterrows df) dl_init)
    as (k & Hk & Hc & He & Hv & Hstop); [simpl; lia|].
  rewrite iterrows_length in Hk, Hstop. cbn [dl_init pdf_page_counts events
    valid_pdf_count app Nat.add] in Hc, He, Hv.
  assert (Hlen : length (pdf_page_counts
                   (download_loop cap max_pages net (iterrows df) dl_init)) = k).
  { rewrite Hc, length_map. apply firstn_length_le.
    now rewrite iterrows_length. }
  assert (k' = k) by (rewrite Hc', length_map, length_seq in Hlen; exact Hlen).
  subst k'. rewrite Hlen.
  split; [exact Hk|]. split; [exact He|]. split; [exact Hv|].
  split; [reflexivity|].
  intros Hlt. destruct (Hstop Hlt) as [Hcapv (x & Hx & Hpos & Hsx)].
  split; [exact Hcapv|]. exists x. auto.
Qed.

Lemma iterrows_nth (df : DataFrame) j x :
  nth_error (iterrows df) j = Some x ->
  exists r, x = (j, r) /\ nth_error df j = Some r.
Proof.
  intros H.
  assert (Hj : j < length df).
  { rewrite <- iterrows_length. apply nth_error_Some. congruence. }
  destruct (nth_error df j) as [r|] eqn:E;
    [|apply nth_error_None in E; lia].
  exists r. split; [|reflexivity].
  unfold iterrows in H. rewrite (nth_error_combine_seq df 0 j r E) in H.
  now inversion H.
Qed.

(** *** Further properties of a run *)

(** X1. Rows are trimmed only when the cap was reached: either every row
    of the frame was processed, or the counter stands at 100 and the last
    processed row is the one whose PDF was saved last. A frame of at most
    100 rows is never trimmed. *)
Theorem rows_trimmed_only_at_cap (max_pages : Z) (net : network)
    (df : DataFrame) :
  (processed_rows (fst (download_and_filter_pdfs max_pages net df)) = length df
   \/
   (valid_pdf_count (fst (download_and_filter_pdfs max_pages net df)) = 100 /\
    exists r,
      nth_error df
        (processed_rows (fst (download_and_filter_pdfs max_pages net df)) - 1)
      = Some r /\
      In (EvSave
            (processed_rows (fst (download_and_filter_pdfs max_pages net df)) - 1)
            (id r ++ ".pdf"))
         (events (fst (download_and_filter_pdfs max_pages net df))))) /\
  (length df <= 100 ->
   processed_rows (fst (download_and_filter_pdfs max_pages net df)) = length df).
Proof.
  unfold download_and_filter_pdfs, processed_rows.
  destruct (run_trace quota_cap max_pages net df) as (Hk & He & Hv & _ & Hstop);
    [unfold quota_cap; lia|].
  set (st := fst (download_and_filter_with quota_cap max_pages net df)) in *.
  set (k := length (pdf_page_counts st)) in *.
  assert (Hcount : valid_pdf_count st <= k).
  { rewrite Hv. etransitivity; [apply filter_length_le|].
    apply firstn_le_length. }
  split.
  - destruct (Nat.eq_dec k (length df)) as [Heq | Hne]; [now left|].
    right. destruct Hstop as [Hcap (x & Hx & Hs & Hpos)]; [lia|].
    split; [exact Hcap|].
    destruct (iterrows_nth _ _ _ Hx) as (r & -> & Hr).
    exists r. split; [exact Hr|].
    rewrite He. apply row_events_save. exists (k - 1, r).
    repeat split; auto.
    apply (nth_error_In _ (k - 1)). rewrite nth_error_firstn.
    destruct (k - 1 <? k) eqn:E; [exact Hx | apply Nat.ltb_ge in E; lia].
  - intros Hle. destruct (Nat.eq_dec k (length df)) as [Heq | Hne]; [exact Heq|].
    destruct Hstop as [Hcap _]; [lia|]. unfold quota_cap in Hcap. lia.
Qed.

(** X2. Every PDF the run saved has its row in the returned frame, with
    the page count that was measured for it, and the file is named after
    the row's id. *)
Theorem saved_rows_are_returned (max_pages : Z) (net : network)
    (df : DataFrame) (i : nat) (f : string) :
  In (EvSave i f) (events (fst (download_and_filter_pdfs max_pages net df))) ->
  exists r pc ret,
    nth_error df i = Some r /\
    f = (id r ++ ".pdf")%string /\
    net i = Pdf pc true /\
    (Z.of_nat pc <= max_pages)%Z /\
    snd (download_and_filter_pdfs max_pages net df) = Some ret /\
    In (i, r, pc) ret.
Proof.
  unfold download_and_filter_pdfs.
  destruct (run_trace quota_cap max_pages net df) as (Hk & He & _ & Hs & _);
    [unfold quota_cap; lia|].
  rewrite He, Hs. intros Hin. apply row_events_save in Hin.
  destruct Hin as ([j r] & Hx & Hsv & Hj & Hf). simpl in Hj. subst j.
  destruct (saves_recorded _ _ _ Hsv) as (pc & Hnet & Hle & Hrec).
  simpl in Hnet, Hrec.
  exists r, pc. eexists. split; [|split; [exact Hf|]].
  - apply iterrows_In. eapply firstn_In; eauto.
  - split; [exact Hnet|]. split; [exact Hle|]. split; [reflexivity|].
    apply filter_In. split.
    + unfold annotated. apply in_map_iff. exists (i, r). simpl.
      rewrite Hrec. auto.
    + unfold page_filter. simpl. now apply Z.leb_le.
Qed.

Lemma saved_rows_are_returned_witness :
  exists r pc ret,
    nth_error [paper "a"; paper "b"; paper "c"] 2 = Some r /\
    "c.pdf" = (id r ++ ".pdf")%string /\
    one_long_paper 2 = Pdf pc true /\
    (Z.of_nat pc <= 15)%Z /\
    snd (download_and_filter_pdfs 15 one_long_paper
           [paper "a"; paper "b"; paper "c"]) = Some ret /\
    In (2, r, pc) ret.
Proof.
  apply (saved_rows_are_returned 15%Z one_long_paper
           [paper "a"; paper "b"; paper "c"] 2 "c.pdf").
  vm_compute. right. right. right. right. now left.
Defined.

(** X3. A returned row is either a row whose PDF was saved, carrying the
    measured page count, or a row whose [try] ended in the [except],
    carrying the count 0: rows measured above the bound and rows never
    attempted are not returned. *)
Theorem returned_rows_were_saved_or_failed (max_pages : Z) (net : network)
    (df : DataFrame) (ret : list (nat * row * nat)) (i : nat) (r : row)
    (c : nat) :
  snd (download_and_filter_pdfs max_pages net df) = Some ret ->
  In (i, r, c) ret ->
  (In (EvSave i (id r ++ ".pdf"))
      (events (fst (download_and_filter_pdfs max_pages net df))) /\
   net i = Pdf c true) \/
  (In (EvWarn i (pdf_url r))
      (events (fst (download_and_filter_pdfs max_pages net df))) /\
   c = 0).
Proof.
  unfold download_and_filter_pdfs.
  destruct (run_trace quota_cap max_pages net df) as (Hk & He & _ & Hs & _);
    [unfold quota_cap; lia|].
  rewrite He, Hs. intros Hret Hin. inversion Hret; subst ret. clear Hret.
  apply filter_In in Hin. destruct Hin as [Hin Hp].
  unfold annotated in Hin. apply in_map_iff in Hin.
  destruct Hin as ([j r'] & Heq & Hx). simpl in Heq. inversion Heq; subst.
  unfold page_filter in Hp. simpl in Hp.
  destruct (saves max_pages net (i, r)) eqn:Es.
  - left. destruct (saves_recorded _ _ _ Es) as (pc & Hnet & _ & Hrec).
    simpl in Hnet, Hrec. rewrite Hrec. split; [|exact Hnet].
    apply row_events_save. exists (i, r). auto.
  - destruct (fails max_pages net (i, r)) eqn:Ef.
    + right. split; [|exact (fails_recorded _ _ _ Ef)].
      apply row_events_warn. exists (i, r). auto.
    + exfalso. unfold saves, fails, recorded in *. simpl in *.
      destruct (net i) as [|pc [|]]; try discriminate;
        rewrite Es in Hp || rewrite Ef in Hp; congruence.
Qed.

Lemma returned_rows_were_saved_or_failed_witness :
  (In (EvSave 1 (id (paper "b") ++ ".pdf"))
      (events (fst (download_and_filter_pdfs 15 first_download_fails
                      [paper "a"; paper "b"]))) /\
   first_download_fails 1 = Pdf 5 true) \/
  (In (EvWarn 1 (pdf_url (paper "b")))
      (events (fst (download_and_filter_pdfs 15 first_download_fails
                      [paper "a"; paper "b"]))) /\
   5 = 0).
Proof.
  apply (returned_rows_were_saved_or_failed 15%Z first_download_fails
           [paper "a"; paper "b"] [(0, paper "a", 0); (1, paper "b", 5)]).
  - reflexivity.
  - right. now left.
Defined.

Lemma filter_none {A} (f : A -> bool) (l : list A) :
  (forall x, In x l -> f x = false) -> filter f l = [].
Proof.
  induction l as [|a l IH]; intros H; simpl; [reflexivity|].
  rewrite (H a) by now left. apply IH. intros x Hx. apply H. now right.
Qed.

(** X4. With a negative [max_pages] no PDF is within the bound: every row
    is attempted, nothing is saved, the counter stays at 0 and the
    returned frame is empty (even the rows that failed are dropped, their
    count 0 being above the bound). *)
Theorem negative_bound_keeps_nothing (max_pages : Z) (net : network)
    (df : DataFrame) :
  (max_pages < 0)%Z ->
  processed_rows (fst (download_and_filter_pdfs max_pages net df)) = length df /\
  saved_files (events (fst (download_and_filter_pdfs max_pages net df))) = [] /\
  valid_pdf_count (fst (download_and_filter_pdfs max_pages net df)) = 0 /\
  snd (download_and_filter_pdfs max_pages net df) = Some [].
Proof.
  intros Hneg. unfold download_and_filter_pdfs, processed_rows.
  destruct (run_trace quota_cap max_pages net df) as (Hk & He & Hv & Hs & Hstop);
    [unfold quota_cap; lia|].
  set (st := fst (download_and_filter_with quota_cap max_pages net df)) in *.
  set (k := length (pdf_page_counts st)) in *.
  assert (Hnone : forall l, filter (saves max_pages net) l = []).
  { intros l. apply filter_none. intros x _. unfold saves.
    destruct (net (fst x)) as [|pc [|]]; try reflexivity.
    apply Z.leb_gt. lia. }
  rewrite Hnone in Hv. simpl in Hv.
  split; [|split; [|split]].
  - destruct (Nat.eq_dec k (length df)) as [Heq | Hne]; [exact Heq|].
    destruct Hstop as [Hcap _]; [lia|]. unfold quota_cap in Hcap. lia.
  - rewrite He, saved_files_row_events, Hnone. reflexivity.
  - exact Hv.
  - rewrite Hs. f_equal. apply filter_none. intros [[i r] c] _.
    unfold page_filter. simpl. apply Z.leb_gt. lia.
Qed.

Lemma negative_bound_keeps_nothing_witness :
  processed_rows (fst (download_and_filter_pdfs (-1) first_download_fails
                         [paper "a"; paper "b"])) = 2 /\
  saved_files (events (fst (download_and_filter_pdfs (-1) first_download_fails
                              [paper "a"; paper "b"]))) = [] /\
  valid_pdf_count (fst (download_and_filter_pdfs (-1) first_download_fails
                          [paper "a"; paper "b"])) = 0 /\
  snd (download_and_filter_pdfs (-1) first_download_fails
         [paper "a"; paper "b"]) = Some [].
Proof.
  apply (negative_bound_keeps_nothing (-1)%Z first_download_fails
           [paper "a"; paper "b"]).
  reflexivity.
Defined.

Lemma run_saved_files max_pages net df :
  saved_files (events (fst (download_and_filter_pdfs max_pages net df)))
  = map file_name
      (filter (saves max_pages net)
         (firstn (processed_rows (fst (download_and_filter_pdfs max_pages net df)))
            (iterrows df))).
Proof.
  unfold download_and_filter_pdfs, processed_rows.
  destruct (run_trace quota_cap max_pages net df) as (_ & He & _ & _ & _);
    [unfold quota_cap; lia|].
  rewrite He at 1. apply saved_files_row_events.
Qed.

(** X5. What a run leaves outside the frame, row by row: a request is
    made for each processed row, in frame order; the files written are
    the [id.pdf] of the processed rows that are within the bound and can
    be written, in frame order; and one warning is logged for each
    processed row whose [try] raised, and for no other row. *)
Theorem requests_files_and_warnings (max_pages : Z) (net : network)
    (df : DataFrame) :
  attempted (events (fst (download_and_filter_pdfs max_pages net df)))
    = seq 0 (processed_rows (fst (download_and_filter_pdfs max_pages net df))) /\
  saved_files (events (fst (download_and_filter_pdfs max_pages net df)))
    = map file_name
        (filter (saves max_pages net)
           (firstn (processed_rows (fst (download_and_filter_pdfs max_pages net df)))
              (iterrows df))) /\
  warned (events (fst (download_and_filter_pdfs max_pages net df)))
    = map fst
        (filter (fails max_pages net)
           (firstn (processed_rows (fst (download_and_filter_pdfs max_pages net df)))
              (iterrows df))).
Proof.
  unfold download_and_filter_pdfs, processed_rows.
  destruct (run_trace quota_cap max_pages net df) as (Hk & He & _ & _ & _);
    [unfold quota_cap; lia|].
  destruct (run_spec quota_cap max_pages net df) as (k & _ & Ha & Hc & _).
  split; [|split].
  - rewrite Ha, Hc, length_map, length_seq. reflexivity.
  - apply run_saved_files.
  - rewrite He at 1. apply warned_row_events.
Qed.

Lemma NoDup_firstn {A} (l : list A) k : NoDup l -> NoDup (firstn k l).
Proof.
  intros H. rewrite <- (firstn_skipn k l) in H.
  eapply NoDup_app_remove_r; eauto.
Qed.

Lemma iterrows_NoDup (df : DataFrame) : NoDup (iterrows df).
Proof.
  apply (NoDup_map_inv fst). rewrite iterrows_labels. apply seq_NoDup.
Qed.

(** X6. When the ids of the frame are pairwise different, so are the
    files the run writes: the counter then counts files on disk. It
    counts writes otherwise: two rows with the same id are written to the
    same file and counted twice. *)
Theorem distinct_ids_distinct_files :
  (forall max_pages net df,
      NoDup (map id df) ->
      NoDup (saved_files (events (fst (download_and_filter_pdfs max_pages net df)))))
  /\
  (saved_files (events (fst (download_and_filter_pdfs 15 all_short two_same_id)))
     = ["a.pdf"; "a.pdf"] /\
   valid_pdf_count (fst (download_and_filter_pdfs 15 all_short two_same_id)) = 2).
Proof.
  split; [|split; reflexivity].
  intros max_pages net df Hids.
  rewrite run_saved_files.
  apply NoDup_map_NoDup_ForallPairs.
  - intros [i r] [j r'] Hx Hy Hname.
    apply filter_In in Hx, Hy. destruct Hx as [Hx _], Hy as [Hy _].
    apply firstn_In, iterrows_In in Hx. apply firstn_In, iterrows_In in Hy.
    unfold file_name in Hname. simpl in Hname. apply append_inj_l in Hname.
    assert (Hi : i < length (map id df))
      by (rewrite length_map; apply nth_error_Some; congruence).
    assert (i = j).
    { apply (proj1 (NoDup_nth_error (map id df)) Hids i j Hi).
      rewrite !nth_error_map, Hx, Hy. simpl. now rewrite Hname. }
    subst j. congruence.
  - apply NoDup_filter, NoDup_firstn, iterrows_NoDup.
Qed.

Lemma distinct_ids_distinct_files_witness :
  NoDup (saved_files
           (events (fst (download_and_filter_pdfs 15 one_long_paper
                           [paper "a"; paper "b"; paper "c"])))).
Proof.
  apply (proj1 distinct_ids_distinct_files 15%Z one_long_paper
           [paper "a"; paper "b"; paper "c"]).
  repeat constructor; simpl; intuition discriminate.
Defined.

End DownloaderMore.

(** ** More on [ResearchPaperProcessor] *)

Module ProcessorMore.
Import Text Json Processor ProcessorViews ProcessorFacts TextFacts.

(** *** Dicts and folders *)

Lemma assoc_get_In {A} (k : string) (v : A) (d : list (string * A)) :
  assoc_get k d = Some v -> In k (map fst d).
Proof.
  induction d as [|[k' v'] d IH]; simpl; [discriminate|].
  destruct (String.eqb k' k) eqn:E.
  - apply String.eqb_eq in E. now left.
  - intros H. right. now apply IH.
Qed.

Lemma assoc_get_None {A} (k : string) (d : list (string * A)) :
  ~ In k (map fst d) -> assoc_get k d = None.
Proof.
  induction d as [|[k' v'] d IH]; simpl; [reflexivity|].
  intros H. destruct (String.eqb k' k) eqn:E.
  - apply String.eqb_eq in E. tauto.
  - apply IH. tauto.
Qed.

Lemma assoc_get_None_inv {A} (k : string) (d : list (string * A)) :
  assoc_get k d = None -> ~ In k (map fst d).
Proof.
  induction d as [|[k' v'] d IH]; simpl; [tauto|].
  destruct (String.eqb k' k) eqn:E; [discriminate|].
  apply String.eqb_neq in E. intros H [Heq | Hin]; [congruence|].
  now apply IH.
Qed.


Lemma assoc_set_keys_old {A} (k : string) (v : A) (d : list (string * A)) :
  In k (map fst d) -> map fst (assoc_set k v d) = map fst d.
Proof.
  induction d as [|[k' v'] d IH]; simpl; [contradiction|].
  destruct (String.eqb k' k) eqn:E.
  - apply String.eqb_eq in E. subst. reflexivity.
  - apply String.eqb_neq in E. intros [Heq | Hin]; [congruence|].
    simpl. now rewrite IH.
Qed.

Lemma assoc_set_keys_In {A} (k k' : string) (v : A) (d : list (string * A)) :
  In k' (map fst (assoc_set k v d)) <-> k' = k \/ In k' (map fst d).
Proof.
  induction d as [|[k0 v0] d IH]; simpl.
  - intuition.
  - destruct (String.eqb k0 k) eqn:E; simpl.
    + apply String.eqb_eq in E. subst. intuition.
    + rewrite IH. intuition.
Qed.

Lemma assoc_set_NoDup {A} (k : string) (v : A) (d : list (string * A)) :
  NoDup (map fst d) -> NoDup (map fst (assoc_set k v d)).
Proof.
  induction d as [|[k0 v0] d IH]; simpl; intros H.
  - constructor; [tauto | constructor].
  - inversion H as [|? ? Hnin Hnd]; subst.
    destruct (String.eqb k0 k) eqn:E; simpl.
    + apply String.eqb_eq in E. subst. now constructor.
    + apply String.eqb_neq in E. constructor; [|now apply IH].
      rewrite assoc_set_keys_In. intros [Heq | Hin]; [congruence | tauto].
Qed.

(** Two dicts with the same keys in the same order and the same values
    are the same dict. *)
Lemma assoc_ext {A} (d1 : list (string * A)) :
  forall d2, NoDup (map fst d1) -> map fst d1 = map fst d2 ->
  (forall k, assoc_get k d1 = assoc_get k d2) -> d1 = d2.
Proof.
  induction d1 as [|[k v] d1 IH]; intros [|[k' v'] d2] Hnd Hkeys Hget;
    try discriminate; [reflexivity|].
  simpl in Hkeys. inversion Hkeys; subst k'.
  inversion Hnd as [|? ? Hnin Hnd']; subst.
  pose proof (Hget k) as Hk. simpl in Hk. rewrite String.eqb_refl in Hk.
  inversion Hk; subst v'. f_equal.
  apply IH; auto. intros k'.
  destruct (String.eqb k k') eqn:E.
  - apply String.eqb_eq in E. subst k'.
    rewrite !assoc_get_None; auto. congruence.
  - specialize (Hget k'). simpl in Hget. now rewrite E in Hget.
Qed.

(** *** [combine_json_files] *)

Lemma combine_loop_raise listing :
  forall acc e, combine_loop listing acc = Raise e ->
  exists before f v after,
    listing = before ++ (f, v) :: after /\
    (forall f' v', In (f', v') before -> endswith ".json" f' = true ->
       exists d, subscript_data v' = Ok d) /\
    endswith ".json" f = true /\
    subscript_data v = Raise e.
Proof.
  induction listing as [|[f0 v0] listing IH]; intros acc e H; simpl in H;
    [discriminate|].
  destruct (endswith ".json" f0) eqn:Ef.
  - destruct (subscript_data v0) as [d|e0] eqn:Ed.
    + destruct (IH _ _ H) as (before & f & v & after & -> & Hb & Hf & Hv).
      exists ((f0, v0) :: before), f, v, after. repeat split; auto.
      intros f' v' [Heq | Hin] Hf'; [inversion Heq; subst; eauto | eauto].
    + inversion H; subst e0.
      exists [], f0, v0, listing. repeat split; auto.
      intros f' v' [].
  - destruct (IH _ _ H) as (before & f & v & after & -> & Hb & Hf & Hv).
    exists ((f0, v0) :: before), f, v, after. repeat split; auto.
    intros f' v' [Heq | Hin] Hf'; [|eauto].
    inversion Heq; subst. congruence.
Qed.

Lemma subscript_data_raises v e :
  subscript_data v = Raise e -> e = KeyError "data" \/ e = TypeError.
Proof.
  destruct v; simpl; try (intros H; inversion H; now right).
  destruct (assoc_get "data" members); intros H; inversion H. now left.
Qed.

(** X7. The aggregation ends if and only if every ".json" file of the
    parsed store is an object with a "data" member. Otherwise it raises
    at the first file, in listing order, that is not: [KeyError] for an
    object without "data", [TypeError] for any other value; the output
    file is then not written. Files not ending in ".json" play no part. *)
Theorem aggregation_needs_data_everywhere (st : proc_state) :
  ((exists st', combine_json_files st = Ok st') <->
   (forall f v, In (f, v) (json_folder st) -> endswith ".json" f = true ->
      exists d, subscript_data v = Ok d)) /\
  (forall e, combine_json_files st = Raise e ->
     (e = KeyError "data" \/ e = TypeError) /\
     exists before f v after,
       json_folder st = before ++ (f, v) :: after /\
       (forall f' v', In (f', v') before -> endswith ".json" f' = true ->
          exists d, subscript_data v' = Ok d) /\
       endswith ".json" f = true /\
       subscript_data v = Raise e).
Proof.
  unfold combine_json_files. split; [split|].
  - intros [st' H].
    destruct (combine_loop (json_folder st) []) as [c|e] eqn:E; [|discriminate].
    exact (combine_loop_ok_inv _ _ _ E).
  - intros Hall.
    destruct (combine_loop_total _ Hall []) as [c ->]. eauto.
  - intros e H.
    destruct (combine_loop (json_folder st) []) as [c|e'] eqn:E; [discriminate|].
    inversion H; subst e'.
    destruct (combine_loop_raise _ _ _ E) as (b & f & v & a & H1 & H2 & H3 & H4).
    split; [exact (subscript_data_raises _ _ H4)|].
    exists b, f, v, a. auto.
Qed.

(** X8. The corpus does not depend on the order in which [os.listdir]
    gives the parsed store, as long as the files that are given the same
    key hold the same document: listed in another order, the aggregation
    ends as well and every key has the same entry. *)
Theorem corpus_independent_of_listing_order (st1 st2 st1' : proc_state) :
  Permutation (json_folder st1) (json_folder st2) ->
  (forall f v f' v', In (f, v) (json_folder st1) -> In (f', v') (json_folder st1) ->
     endswith ".json" f = true -> endswith ".json" f' = true ->
     replace ".json" "" f' = replace ".json" "" f -> v' = v) ->
  combine_json_files st1 = Ok st1' ->
  exists st2' c1 c2,
    combine_json_files st2 = Ok st2' /\
    output_file st1' = Some c1 /\ output_file st2' = Some c2 /\
    forall k, assoc_get k c1 = assoc_get k c2.
Proof.
  unfold combine_json_files. intros Hperm Hsame H1.
  destruct (combine_loop (json_folder st1) []) as [c1|e] eqn:E1; [|discriminate].
  inversion H1; subst st1'.
  destruct (combine_any_listing_order _ _ _ Hperm Hsame E1) as (c2 & E2 & Hk).
  rewrite E2. exists (write_output c2 st2), c1, c2. auto.
Qed.

Lemma corpus_independent_of_listing_order_witness :
  exists st2' c1 c2,
    combine_json_files
      (write_json "1.json" (JObj [("data", JStr "first")])
         (write_json "2.json" (JObj [("data", JStr "second")]) proc_init))
    = Ok st2' /\
    output_file (write_output [("1", JStr "first"); ("2", JStr "second")] two_parsed)
    = Some c1 /\
    output_file st2' = Some c2 /\
    forall k, assoc_get k c1 = assoc_get k c2.
Proof.
  apply (corpus_independent_of_listing_order two_parsed).
  - apply perm_swap.
  - intros f v f' v' [H1 | [H1 | []]] [H2 | [H2 | []]] _ _ Hk;
      inversion H1; inversion H2; subst; try reflexivity;
      vm_compute in Hk; discriminate.
  - reflexivity.
Defined.

(** *** [convert_responses_to_json] *)

Lemma convert_frame listing :
  forall st,
  response_folder (fold_left convert_one listing st) = response_folder st /\
  output_file (fold_left convert_one listing st) = output_file st /\
  calls (events (fold_left convert_one listing st)) = calls (events st) /\
  pauses (events (fold_left convert_one listing st)) = pauses (events st) /\
  json_errors (events (fold_left convert_one listing st))
  = json_errors (events st) + length (filter undecodable listing).
Proof.
  induction listing as [|[f c] listing IH]; intros st.
  - simpl. repeat split; lia.
  - cbn [fold_left filter].
    destruct (IH (convert_one st (f, c))) as (H1 & H2 & H3 & H4 & H5).
    rewrite H1, H2, H3, H4, H5. clear.
    unfold convert_one, undecodable, calls, pauses, json_errors. simpl.
    destruct (endswith ".txt" f); simpl; [|repeat split; lia].
    destruct (json_loads c); simpl; [repeat split; lia|].
    rewrite !filter_app, !length_app. simpl. repeat split; lia.
Qed.


Lemma convert_NoDup listing :
  forall st, NoDup (map fst (json_folder st)) ->
  NoDup (map fst (json_folder (fold_left convert_one listing st))).
Proof.
  induction listing as [|[f c] listing IH]; intros st H; simpl; [exact H|].
  apply IH. destruct (endswith ".txt" f); [|exact H].
  destruct (json_loads c); [|exact H]. simpl. now apply assoc_set_NoDup.
Qed.

(** Converting a listing whose every record is already in the store
    leaves the names of the store as they are. *)
Lemma convert_keys_old listing :
  forall st,
  (forall f c v, In (f, c) listing -> endswith ".txt" f = true ->
     json_loads c = Some v -> In (target f) (map fst (json_folder st))) ->
  map fst (json_folder (fold_left convert_one listing st))
  = map fst (json_folder st).
Proof.
  induction listing as [|[f c] listing IH]; intros st H; simpl; [reflexivity|].
  assert (Hstep : map fst (json_folder (convert_one st (f, c)))
                  = map fst (json_folder st)).
  { unfold convert_one. destruct (endswith ".txt" f) eqn:Ef; [|reflexivity].
    destruct (json_loads c) as [v|] eqn:Ej; [|reflexivity].
    simpl. apply assoc_set_keys_old. fold (target f).
    apply (H f c v); auto. now left. }
  fold (convert_one st (f, c)). rewrite IH; [exact Hstep|].
  intros f' c' v' Hin Hf Hj. rewrite Hstep. apply (H f' c' v'); auto.
  now right.
Qed.

(** X9. Running the normalizer again on the same responses changes
    nothing in the parsed store: every file keeps its place and its
    document (the names of the store being pairwise different, as in a
    folder). *)
Theorem normalizer_rerun_changes_nothing (st : proc_state) :
  NoDup (map fst (json_folder st)) ->
  json_folder (convert_responses_to_json (convert_responses_to_json st))
  = json_folder (convert_responses_to_json st).
Proof.
  intros Hnd. unfold convert_responses_to_json at 1.
  destruct (convert_frame (response_folder st) st) as (Hresp & _).
  fold (convert_responses_to_json st) in Hresp. rewrite Hresp.
  set (st1 := convert_responses_to_json st).
  assert (Hlook : forall name,
    assoc_get name (json_folder st1)
    = match written (response_folder st) name with
      | Some v => Some v
      | None => assoc_get name (json_folder st)
      end) by (intros; apply convert_lookup).
  symmetry. apply assoc_ext.
  - apply convert_NoDup. exact Hnd.
  - symmetry. apply convert_keys_old. intros f c v Hin Hf Hj.
    destruct (written (response_folder st) (target f)) as [w|] eqn:Ew.
    + apply (assoc_get_In _ w). now rewrite Hlook, Ew.
    + rewrite (written_none _ _ Ew f c Hin Hf eq_refl) in Hj. discriminate.
  - intros name. rewrite convert_lookup, Hlook.
    now destruct (written (response_folder st) name).
Qed.

Lemma normalizer_rerun_changes_nothing_witness :
  json_folder
    (convert_responses_to_json (convert_responses_to_json two_responses_twice))
  = json_folder (convert_responses_to_json two_responses_twice).
Proof.
  apply (normalizer_rerun_changes_nothing two_responses_twice).
  constructor.
Defined.

(** *** [generate_responses] and [run] *)








(** *** Names across the stages *)

(** X12. The name of a document survives the three renamings of the
    pipeline: for an id in which none of ".pdf", ".txt", ".json" occurs
    (also not across its end), the base name of [id.pdf] is the id, the
    response [id.txt] is converted to [id.json], and the corpus key of
    [id.json] is the id again. In general [replace] removes an appended
    extension exactly when the extension occurs nowhere else. *)
Theorem document_id_round_trip :
  (forall ext base,
      clean ext base = true ->
      replace ext "" (base ++ ext) = base /\ endswith ext (base ++ ext) = true) /\
  (forall doc,
      clean_id doc = true ->
      replace ".pdf" "" (pdf_name doc) = doc /\
      target (doc ++ ".txt") = (doc ++ ".json")%string /\
      replace ".json" "" (target (replace ".pdf" "" (pdf_name doc) ++ ".txt"))
      = doc).
Proof.
  split.
  - intros ext base H. split; [now apply replace_appended|].
    apply endswith_appended.
  - intros doc H. unfold clean_id in H.
    apply andb_true_iff in H. destruct H as [H Hj].
    apply andb_true_iff in H. destruct H as [Hp Ht].
    unfold pdf_name, target.
    rewrite (replace_appended _ _ Hp), (replace_appended _ _ Ht),
      (replace_appended _ _ Hj). auto.
Qed.

Lemma document_id_round_trip_witness :
  replace ".pdf" "" (pdf_name "2301.00001v1") = "2301.00001v1" /\
  target ("2301.00001v1" ++ ".txt") = ("2301.00001v1" ++ ".json")%string /\
  replace ".json" ""
    (target (replace ".pdf" "" (pdf_name "2301.00001v1") ++ ".txt"))
  = "2301.00001v1".
Proof.
  apply (proj2 document_id_round_trip "2301.00001v1"). reflexivity.
Defined.

(** *** The three stages on a batch of clean, pairwise different ids *)












End ProcessorMore.

(** ** The script [main.py] *)

Module MainFacts.
Import Text Json Downloader DownloaderViews DownloaderFacts DownloaderMore.
Import Processor ProcessorViews ProcessorFacts ProcessorMore Main.

Lemma add_file_In folder name x :
  In x (add_file folder name) <-> In x folder \/ x = name.
Proof.
  unfold add_file. destruct (existsb (String.eqb name) folder) eqn:E.
  - split; [tauto|]. intros [H | ->]; [exact H|].
    apply existsb_exists in E. destruct E as (y & Hy & Heq).
    apply String.eqb_eq in Heq. now subst.
  - rewrite in_app_iff. simpl. intuition.
Qed.

Lemma add_file_length folder name :
  length (add_file folder name) <= S (length folder).
Proof.
  unfold add_file. destruct (existsb (String.eqb name) folder); [lia|].
  rewrite length_app. simpl. lia.
Qed.

Lemma folder_after_In names :
  forall folder x,
  In x (fold_left add_file names folder) <-> In x folder \/ In x names.
Proof.
  induction names as [|n names IH]; intros folder x; simpl; [tauto|].
  rewrite IH, add_file_In. intuition.
Qed.

Lemma folder_after_length names :
  forall folder,
  length (fold_left add_file names folder) <= length folder + length names.
Proof.
  induction names as [|n names IH]; intros folder; simpl; [lia|].
  etransitivity; [apply IH|]. pose proof (add_file_length folder n). lia.
Qed.

Lemma generate_calls_only gen files :
  forall st q,
  In (Processor.EvGenerate q) (Processor.events (generate_responses gen files st)) ->
  In (Processor.EvGenerate q) (Processor.events st) \/ In q files.
Proof.
  induction files as [|pdf files IH]; intros st q H; [now left|].
  rewrite generate_responses_cons in H. apply IH in H.
  destruct H as [H | H]; [|right; now right].
  unfold generate_one in H.
  destruct (gen pdf); simpl in H;
    repeat (apply in_app_or in H; destruct H as [H | H]);
    try (now left);
    try (destruct H as [Heq | []]; inversion Heq; subst; right; now left);
    destruct H as [Heq | []]; discriminate.
Qed.

Lemma convert_calls_only listing :
  forall st q,
  In (Processor.EvGenerate q)
     (Processor.events (fold_left convert_one listing st)) ->
  In (Processor.EvGenerate q) (Processor.events st).
Proof.
  induction listing as [|[f c] listing IH]; intros st q H; [exact H|].
  simpl in H. apply IH in H.
  destruct (endswith ".txt" f); [|exact H].
  destruct (json_loads c); [exact H|]. simpl in H.
  apply in_app_or in H. destruct H as [H | [Heq | []]]; [exact H|discriminate].
Qed.

(** What a run that ends has logged: the events of its first two stages. *)
Lemma run_ok_events gen folder st0 st :
  run gen folder st0 = Ok st ->
  Processor.events st
  = Processor.events
      (convert_responses_to_json
         (generate_responses gen (upload_pdfs folder) st0)).
Proof.
  unfold run, combine_json_files. intros H.
  destruct (combine_loop _ []); [|discriminate].
  inversion H. reflexivity.
Qed.

(** X14. In a run of the script that ends, the model is called at most
    100 times, a pause is taken at most once per call, and the model is
    called only for PDFs that the downloader saved in this run: each call is for the file
    [id.pdf] of a paper of the search result whose row was saved. Rows of
    the returned frame whose download failed are never sent to the
    model. *)
Theorem script_calls_model_for_saved_pdfs_only (net : network) (gen : model)
    (papers : list arxiv_result) (st : proc_state) :
  snd (main net gen papers) = Ok st ->
  calls (Processor.events st) <= 100 /\
  pauses (Processor.events st) <= calls (Processor.events st) /\
  (forall name,
      In (Processor.EvGenerate name) (Processor.events st) ->
      exists i p,
        nth_error papers i = Some p /\
        name = (short_id p ++ ".pdf")%string /\
        In (EvSave i name)
           (Downloader.events
              (fst (download_and_filter_pdfs 15 net
                      (process_paper_metadata papers))))).
Proof.
  unfold main. cbn [snd]. intros Hrun.
  set (df := process_paper_metadata papers) in *.
  set (dl := fst (download_and_filter_pdfs 15 net df)) in *.
  set (folder := pdf_folder_after (Downloader.events dl)) in *.
  rewrite (run_ok_events _ _ _ _ Hrun). clear Hrun.
  destruct (convert_frame
              (response_folder (generate_responses gen (upload_pdfs folder) proc_init))
              (generate_responses gen (upload_pdfs folder) proc_init))
    as (_ & _ & Hcalls & Hpauses & _).
  unfold convert_responses_to_json. rewrite Hcalls, Hpauses.
  destruct (generate_counts gen (upload_pdfs folder) proc_init) as [Hc Hp].
  simpl in Hc, Hp. rewrite Hc, Hp.
  assert (Hsaved : length (saved_files (Downloader.events dl)) <= 100).
  { unfold dl, download_and_filter_pdfs, download_and_filter_with. simpl.
    pose proof (loop_saved_count quota_cap 15 net (iterrows df) dl_init) as H1.
    pose proof (loop_count_le quota_cap 15 net (iterrows df) dl_init) as H2.
    simpl in H1, H2. unfold quota_cap in *. lia. }
  split; [|split].
  - unfold upload_pdfs. etransitivity; [apply filter_length_le|].
    unfold folder, pdf_folder_after.
    etransitivity; [apply folder_after_length|]. simpl. exact Hsaved.
  - apply filter_length_le.
  - intros name Hin. apply convert_calls_only, generate_calls_only in Hin.
    destruct Hin as [[] | Hin].
    unfold upload_pdfs in Hin. apply filter_In in Hin. destruct Hin as [Hin _].
    unfold folder, pdf_folder_after in Hin. apply folder_after_In in Hin.
    destruct Hin as [[] | Hin].
    unfold dl in Hin. rewrite run_saved_files in Hin. apply in_map_iff in Hin.
    destruct Hin as ([i r] & Hname & Hx).
    assert (Hev : In (EvSave i name) (Downloader.events dl)).
    { unfold dl, download_and_filter_pdfs.
      destruct (run_trace quota_cap 15 net df) as (_ & He & _);
        [unfold quota_cap; lia|].
      rewrite He. apply row_events_save. exists (i, r).
      apply filter_In in Hx. destruct Hx as [Hx Hs].
      repeat split; auto. }
    apply filter_In in Hx. destruct Hx as [Hx _].
    apply firstn_In, iterrows_In in Hx.
    unfold df, process_paper_metadata in Hx. rewrite nth_error_map in Hx.
    destruct (nth_error papers i) as [p|] eqn:Ep; [|discriminate].
    simpl in Hx. inversion Hx; subst r.
    exists i, p. repeat split; auto.
Qed.

Lemma script_calls_model_for_saved_pdfs_only_witness :
  exists st,
    snd (main first_download_fails answers_all_but_b
           [sample_result "a"; sample_result "b"; sample_result "c"]) = Ok st /\
    calls (Processor.events st) <= 100 /\
    pauses (Processor.events st) <= calls (Processor.events st).
Proof.
  eexists. split; [vm_compute; reflexivity|].
  refine (let H := script_calls_model_for_saved_pdfs_only first_download_fails
                     answers_all_but_b
                     [sample_result "a"; sample_result "b"; sample_result "c"]
                     _ _ in conj (proj1 H) (proj1 (proj2 H))).
  vm_compute. reflexivity.
Defined.

(** X15. The frame the script writes to the CSV file always exists (the
    assignment of the page-count column never raises), has at most as
    many rows as the search returned papers, and each of its rows is the
    metadata of the paper at its label: the short id, the URL, the title,
    the author names joined by a comma and a blank, and the summary. *)
Theorem script_frame_is_paper_metadata (net : network) (gen : model)
    (papers : list arxiv_result) :
  exists ret,
    fst (main net gen papers) = Some ret /\
    length ret <= length papers /\
    forall i r c, In (i, r, c) ret ->
      exists p,
        nth_error papers i = Some p /\
        r = metadata_row p /\
        id r = short_id p /\
        authors r = join ", " (author_names p).
Proof.
  unfold main. cbn [fst]. unfold download_and_filter_pdfs.
  destruct (run_spec quota_cap 15 net (process_paper_metadata papers))
    as (k & Hk & _ & _ & Hs).
  rewrite Hs. eexists. split; [reflexivity|]. split.
  - etransitivity; [apply filter_length_le|].
    unfold annotated. rewrite length_map, length_firstn, iterrows_length.
    unfold process_paper_metadata. rewrite length_map. lia.
  - intros i r c Hin. apply filter_In in Hin. destruct Hin as [Hin _].
    apply annotated_In in Hin. destruct Hin as (Hnth & _ & _).
    unfold process_paper_metadata in Hnth. rewrite nth_error_map in Hnth.
    destruct (nth_error papers i) as [p|]; [|discriminate].
    simpl in Hnth. inversion Hnth; subst r.
    exists p. repeat split; reflexivity.
Qed.

End MainFacts.
